(** * LittleLemonAPI: serializers, permissions and views

    A shallow embedding of [LittleLemonAPI/serializers.py],
    [LittleLemonAPI/permissions.py] and [LittleLemonAPI/views.py].

    Database tables are lists of rows (a queryset is the list of rows a
    filter keeps, in table order), every ORM call is a function on the
    database value, and a raised exception is the [Raise] case of
    [Result].  Decimal amounts are counted in hundredths, as integers. *)

From Stdlib Require Import ZArith String List Bool Lia.
Import ListNotations.
Local Open Scope Z_scope.

Set Implicit Arguments.

(** ** Exceptions and the error monad *)

(** The [detail] of a [ValidationError] is a dict from a key to a message. *)
Definition Detail := list (string * string).

Inductive Exception :=
| ValidationError (detail : Detail)
| AuthenticationFailed
| NotAuthenticated
| PermissionDenied (message : string)
| NotFound
| IntegrityError
| AssertionError.

Inductive Result (A : Type) :=
| Ok (a : A)
| Raise (e : Exception).

Arguments Ok {A} a.
Arguments Raise {A} e.

Definition bind {A B} (r : Result A) (k : A -> Result B) : Result B :=
  match r with
  | Ok a => k a
  | Raise e => Raise e
  end.

Declare Scope result_scope.
Delimit Scope result_scope with result.
Notation "x <- r ;; k" := (bind r (fun x => k))
  (at level 61, r at next level, right associativity) : result_scope.
Notation "r ;;; k" := (bind r (fun _ => k))
  (at level 61, right associativity) : result_scope.
Local Open Scope result_scope.

(** ** Models *)

Definition pk := Z.

(** Modelled from the spec: the models are declared in
    [LittleLemonAPI/models.py], which is not among the sources.  The rows
    of the five modules below carry the columns that the serializers and
    the views read and write: a cart line has a user, a menu item, a
    quantity, a unit price and a price; an order has an owner, an optional
    delivery crew, a boolean status, a total and the date of its creation;
    an order item has an order, a menu item, a quantity, a unit price and
    a price.  The groups of a user are kept in its row. *)

Module User.
Record t := { id : pk; username : string; groups : list string }.
End User.

Module MenuItem.
Record t := { id : pk; title : string; price : Z; featured : bool;
              category : pk }.
End MenuItem.

Module Cart.
Record t := { id : pk; user : pk; menuitem : pk; quantity : Z;
              unit_price : Z; price : Z }.
End Cart.

Module Order.
Record t := { id : pk; user : pk; delivery_crew : option pk;
              status : bool; total : Z; date : Z }.
End Order.

Module OrderItem.
Record t := { id : pk; order : pk; menuitem : pk; quantity : Z;
              unit_price : Z; price : Z }.
End OrderItem.

(** The database: one list per table, and the next key of each table that
    the code inserts into. *)
Record DB := {
  users : list User.t;
  menuitems : list MenuItem.t;
  carts : list Cart.t;
  orders : list Order.t;
  orderitems : list OrderItem.t;
  cart_seq : pk;
  order_seq : pk;
  orderitem_seq : pk
}.

Definition set_carts (db : DB) (cs : list Cart.t) (seq : pk) : DB :=
  {| users := users db; menuitems := menuitems db; carts := cs;
     orders := orders db; orderitems := orderitems db;
     cart_seq := seq; order_seq := order_seq db;
     orderitem_seq := orderitem_seq db |}.

Definition set_orders (db : DB) (os : list Order.t) (seq : pk) : DB :=
  {| users := users db; menuitems := menuitems db; carts := carts db;
     orders := os; orderitems := orderitems db;
     cart_seq := cart_seq db; order_seq := seq;
     orderitem_seq := orderitem_seq db |}.

Definition set_orderitems (db : DB) (ois : list OrderItem.t) (seq : pk) : DB :=
  {| users := users db; menuitems := menuitems db; carts := carts db;
     orders := orders db; orderitems := ois;
     cart_seq := cart_seq db; order_seq := order_seq db;
     orderitem_seq := seq |}.

Definition set_users (db : DB) (us : list User.t) : DB :=
  {| users := us; menuitems := menuitems db; carts := carts db;
     orders := orders db; orderitems := orderitems db;
     cart_seq := cart_seq db; order_seq := order_seq db;
     orderitem_seq := orderitem_seq db |}.

(** [user.groups.filter(name=...).exists()] *)
Definition in_group (name : string) (u : User.t) : bool :=
  existsb (String.eqb name) (User.groups u).

(** ** Request data

    The body of a request is a JSON object; [get] is the lookup of a key.
    What a serializer field accepts as a boolean, an integer, a primary
    key, an amount or a date is the framework's business and is left as a
    parameter. *)

Inductive JSON :=
| JNull
| JBool (b : bool)
| JNumber (z : Z)
| JString (s : string).

Definition Data := list (string * JSON).

Fixpoint get {V : Type} (key : string) (d : list (string * V)) : option V :=
  match d with
  | [] => None
  | (k, v) :: d' => if String.eqb key k then Some v else get key d'
  end.

Class Fields := {
  BooleanField : JSON -> option bool;
  IntegerField : JSON -> option Z;
  PrimaryKeyRelatedField : JSON -> option pk;
  DecimalField : JSON -> option Z;
  DateField : JSON -> option Z
}.

(** The conversions used in the examples: a JSON boolean is a boolean and
    a JSON number is an integer, a key, an amount in hundredths or the
    number of a day. *)
Definition strict_fields : Fields :=
  {| BooleanField := fun j => match j with JBool b => Some b | _ => None end;
     IntegerField := fun j => match j with JNumber z => Some z | _ => None end;
     PrimaryKeyRelatedField :=
       fun j => match j with JNumber z => Some z | _ => None end;
     DecimalField := fun j => match j with JNumber z => Some z | _ => None end;
     DateField := fun j => match j with JNumber z => Some z | _ => None end |}.


(** ** Database actions

    A handler runs against the database and either returns or raises.  The
    database it leaves behind is part of the outcome in both cases: what
    was written before an exception stays written. *)

Definition ORM (A : Type) := DB -> DB * Result A.

Definition ret {A} (a : A) : ORM A := fun db => (db, Ok a).

Definition raise {A} (e : Exception) : ORM A := fun db => (db, Raise e).

Definition and_then {A B} (m : ORM A) (k : A -> ORM B) : ORM B :=
  fun db =>
    match m db with
    | (db', Ok a) => k a db'
    | (db', Raise e) => (db', Raise e)
    end.

(** A statement that reads the database. *)
Definition select {A} (q : DB -> A) : ORM A := fun db => (db, Ok (q db)).

(** A statement that writes it. *)
Definition execute {A} (w : DB -> DB * A) : ORM A :=
  fun db => let (db', a) := w db in (db', Ok a).

(** A check that reads the database and may raise. *)
Definition checked {A} (r : DB -> Result A) : ORM A := fun db => (db, r db).

Declare Scope orm_scope.
Delimit Scope orm_scope with orm.
Notation "x <- m ;; k" := (and_then m (fun x => k))
  (at level 61, m at next level, right associativity) : orm_scope.
Notation "m ;;; k" := (and_then m (fun _ => k))
  (at level 61, right associativity) : orm_scope.

(** ** Querysets *)

(** [Cart.objects.filter(user=user)] *)
Definition Cart_objects_filter (user : User.t) (db : DB) : list Cart.t :=
  filter (fun c => Cart.user c =? User.id user) (carts db).

(** [queryset.exists()] *)
Definition exists_ {A} (qs : list A) : bool :=
  match qs with
  | [] => false
  | _ :: _ => true
  end.

(** [carts.aggregate(Sum('price')).get('price__sum')]: the sum over no row
    is [None]. *)
Definition aggregate_Sum_price (qs : list Cart.t) : option Z :=
  match qs with
  | [] => None
  | _ :: _ => Some (fold_left (fun acc c => acc + Cart.price c) qs 0)
  end.

(** [Order.objects.create(user=user, total=total)]: the other columns take
    their defaults (no delivery crew, not delivered, the current date). *)
Definition Order_objects_create (user : User.t) (total : Z) (today : Z)
    (db : DB) : DB * Order.t :=
  let order := {| Order.id := order_seq db; Order.user := User.id user;
                  Order.delivery_crew := None; Order.status := false;
                  Order.total := total; Order.date := today |} in
  (set_orders db (orders db ++ [order]) (order_seq db + 1), order).

(** An [OrderItem(...)] that is not saved yet has no key: it is a row
    waiting for one. *)
Definition OrderItem_ (order : Order.t) (menuitem : pk) (quantity : Z)
    (unit_price : Z) (price : Z) : pk -> OrderItem.t :=
  fun id => {| OrderItem.id := id; OrderItem.order := Order.id order;
               OrderItem.menuitem := menuitem;
               OrderItem.quantity := quantity;
               OrderItem.unit_price := unit_price;
               OrderItem.price := price |}.

Fixpoint assign_keys {A} (seq : pk) (objs : list (pk -> A)) : list A :=
  match objs with
  | [] => []
  | o :: objs' => o seq :: assign_keys (seq + 1) objs'
  end.

(** [OrderItem.objects.bulk_create(order_items)] *)
Definition OrderItem_objects_bulk_create (objs : list (pk -> OrderItem.t))
    (db : DB) : DB * unit :=
  (set_orderitems db (orderitems db ++ assign_keys (orderitem_seq db) objs)
                  (orderitem_seq db + Z.of_nat (length objs)), tt).

(** [Cart.objects.filter(user=user).delete()]: the filter is evaluated
    when the rows are deleted. *)
Definition Cart_objects_filter_delete (user : User.t) (db : DB) : DB * unit :=
  (set_carts db
             (filter (fun c => negb (Cart.user c =? User.id user)) (carts db))
             (cart_seq db), tt).

(** ** [CartSerializer] *)

Module CartSerializer.

(** The validated data: [user] is the hidden field that defaults to the
    user of the request, [menuitem] is the menu item the key denotes. *)
Record Attrs := { user : User.t; menuitem : MenuItem.t; quantity : Z }.

Definition message : string := "Item is already in the cart.".

Definition find_menuitem (db : DB) (k : pk) : option MenuItem.t :=
  find (fun m => MenuItem.id m =? k) (menuitems db).

(** Field by field conversion of the writable fields; the errors of all
    fields are collected under the names of the fields ([unit_price] and
    [price] are read-only and are not read from the request). *)
Definition to_internal_value {F : Fields} (request_user : User.t)
    (data : Data) (db : DB) : Result Attrs :=
  let menuitem_ :=
    match get "menuitem" data with
    | None => inl [("menuitem", "This field is required.")]
    | Some j =>
        match PrimaryKeyRelatedField j with
        | None => inl [("menuitem", "Incorrect type.")]
        | Some k =>
            match find_menuitem db k with
            | None => inl [("menuitem", "Invalid pk.")]
            | Some m => inr m
            end
        end
    end%string in
  let quantity_ :=
    match get "quantity" data with
    | None => inl [("quantity", "This field is required.")]
    | Some j =>
        match IntegerField j with
        | None => inl [("quantity", "A valid integer is required.")]
        | Some q => inr q
        end
    end%string in
  match menuitem_, quantity_ with
  | inr m, inr q =>
      Ok {| user := request_user; menuitem := m; quantity := q |}
  | inl e1, inr _ => Raise (ValidationError e1)
  | inr _, inl e2 => Raise (ValidationError e2)
  | inl e1, inl e2 => Raise (ValidationError (e1 ++ e2))
  end.

(** [UniqueTogetherValidator(queryset=Cart.objects.all(),
    fields=['user', 'menuitem'], message=...)] *)
Definition UniqueTogetherValidator (attrs : Attrs) (db : DB) : Result unit :=
  if exists_ (filter (fun c => (Cart.user c =? User.id (user attrs))
                               && (Cart.menuitem c =? MenuItem.id (menuitem attrs)))
                     (carts db))
  then Raise (ValidationError [("non_field_errors", message)%string])
  else Ok tt.

Definition validate (attrs : Attrs) : Result Attrs :=
  if quantity attrs <=? 0
  then Raise (ValidationError
                [("non_field_errors", "quantity cannot be 0 or less than 0.")%string])
  else Ok attrs.

(** The fields first, then the validators of [Meta], then [validate]. *)
Definition run_validation {F : Fields} (request_user : User.t)
    (data : Data) (db : DB) : Result Attrs :=
  value <- to_internal_value request_user data db ;;
  UniqueTogetherValidator value db ;;;
  validate value.

Definition create (validated_data : Attrs) : ORM Cart.t :=
  let menuitem := menuitem validated_data in
  let unit_price := MenuItem.price menuitem in
  let quantity := quantity validated_data in
  let price := unit_price * quantity in
  execute (fun db =>
    let cart := {| Cart.id := cart_seq db;
                   Cart.user := User.id (user validated_data);
                   Cart.menuitem := MenuItem.id menuitem;
                   Cart.quantity := quantity;
                   Cart.unit_price := unit_price;
                   Cart.price := price |} in
    (set_carts db (carts db ++ [cart]) (cart_seq db + 1), cart)).

(** [serializer.is_valid(raise_exception=True)] and [serializer.save()],
    as [CreateModelMixin.create] calls them. *)
Definition save {F : Fields} (request_user : User.t) (data : Data)
    : ORM Cart.t :=
  (validated_data <- checked (run_validation request_user data) ;;
   create validated_data)%orm.

End CartSerializer.

(** ** [OrderSerializer] *)

Module OrderSerializer.

(** A validated value of a field: an optional user ([delivery_crew]), a
    boolean ([status]), a key ([id], [user]), an amount ([total]) or a
    day ([date]). *)
Inductive Value :=
| VUser (u : option pk)
| VBool (b : bool)
| VKey (k : pk)
| VDecimal (d : Z)
| VDate (d : Z).

(** [attrs] and [validated_data]: a dict from field names to values. *)
Definition Attrs := list (string * Value).

(** [Meta.fields] and [Meta.read_only_fields]. *)
Definition fields : list string :=
  ["id"; "user"; "delivery_crew"; "status"; "total"; "date"]%string.

Definition read_only_fields : list string :=
  ["user"; "total"; "date"]%string.

(** [id] is the key of the model and [user] is declared as a
    [StringRelatedField]: both are read-only by their kind, whatever
    [Meta] lists. *)
Definition read_only_by_kind (name : string) : bool :=
  String.eqb name "id" || String.eqb name "user".

(** A field is read-only by its kind or because [Meta.read_only_fields]
    lists it; the serializer converts the others. *)
Definition read_only (name : string) : bool :=
  read_only_by_kind name || existsb (String.eqb name) read_only_fields.

Definition writable_fields : list string :=
  filter (fun name => negb (read_only name)) fields.

(** Modelled from the spec: the columns of [Order] are declared in
    [models.py]; the delivery crew of an order is optional and refers to
    a user, the status is a boolean, the total is an amount, the date is
    a day and the key is an integer.  This is the conversion of one
    field, by the kind of its column; a [StringRelatedField] converts
    nothing. *)
Definition field_to_internal_value {F : Fields} (db : DB) (name : string)
    (j : JSON) : string + Value :=
  if String.eqb name "delivery_crew" then
    match j with
    | JNull => inr (VUser None)
    | _ =>
        match PrimaryKeyRelatedField j with
        | None => inl "Incorrect type."%string
        | Some k =>
            if existsb (fun u => User.id u =? k) (users db)
            then inr (VUser (Some k))
            else inl "Invalid pk."%string
        end
    end
  else if String.eqb name "status" then
    match BooleanField j with
    | None => inl "Must be a valid boolean."%string
    | Some b => inr (VBool b)
    end
  else if String.eqb name "total" then
    match DecimalField j with
    | None => inl "A valid number is required."%string
    | Some d => inr (VDecimal d)
    end
  else if String.eqb name "date" then
    match DateField j with
    | None => inl "Date has wrong format."%string
    | Some d => inr (VDate d)
    end
  else if String.eqb name "id" then
    match IntegerField j with
    | None => inl "A valid integer is required."%string
    | Some k => inr (VKey k)
    end
  else inl "This field is read-only."%string.

(** Every field among [names] that the request names is converted; a
    field the request does not name is skipped (the columns of the
    writable fields have a default, so neither is required, in a full
    update as in a partial one), and a key of the request that is not
    among [names] is never read. *)
Fixpoint convert_fields {F : Fields} (db : DB) (names : list string)
    (data : Data) : Detail * Attrs :=
  match names with
  | [] => ([], [])
  | name :: names' =>
      let (errors, attrs) := convert_fields db names' data in
      match get name data with
      | None => (errors, attrs)
      | Some j =>
          match field_to_internal_value db name j with
          | inl e => ((name, e) :: errors, attrs)
          | inr v => (errors, (name, v) :: attrs)
          end
      end
  end.

Definition to_internal_value {F : Fields} (data : Data) (db : DB)
    : Result Attrs :=
  match convert_fields db writable_fields data with
  | ([], attrs) => Ok attrs
  | (errors, _) => Raise (ValidationError errors)
  end.

(** ['status' not in attrs] *)
Definition not_in (key : string) (attrs : Attrs) : bool :=
  negb (existsb (fun kv => String.eqb key (fst kv)) attrs).

Definition validate (user : User.t) (attrs : Attrs) : Result Attrs :=
  if in_group "delivery_crew" user then
    if (1 <? Z.of_nat (length attrs)) || not_in "status" attrs then
      Raise (ValidationError
               [("detail", "Only status field is editable.")%string])
    else Ok attrs
  else Ok attrs.

Definition run_validation {F : Fields} (user : User.t) (data : Data)
    (db : DB) : Result Attrs :=
  value <- to_internal_value data db ;;
  validate user value.

Definition cart_is_empty : Exception :=
  ValidationError [("detail", "Cart is empty.")%string].

(** The order item that the loop builds from one cart line. *)
Definition order_item (order : Order.t) (cart : Cart.t) : pk -> OrderItem.t :=
  OrderItem_ order (Cart.menuitem cart) (Cart.quantity cart)
             (Cart.unit_price cart) (Cart.price cart).

(** [carts] is a lazy queryset: it is evaluated by [exists], by
    [aggregate], by the loop and by [delete], each time against the
    database of that moment.  Modelled from the spec: the total of an
    order is an amount, so that an order without one ([price__sum] of no
    row) is refused by the table. *)
Definition create (user : User.t) (today : Z) : ORM Order.t :=
  (nonempty <- select (fun db => exists_ (Cart_objects_filter user db)) ;;
   if negb nonempty then raise cart_is_empty
   else
     let carts := Cart_objects_filter user in
     price__sum <- select (fun db => aggregate_Sum_price (carts db)) ;;
     match price__sum with
     | None => raise IntegrityError
     | Some order_total =>
         order <- execute (Order_objects_create user order_total today) ;;
         order_items <- select (fun db => map (order_item order) (carts db)) ;;
         execute (OrderItem_objects_bulk_create order_items) ;;;
         execute (Cart_objects_filter_delete user) ;;;
         ret order
     end)%orm.

(** [setattr(instance, attr, value)]: any attribute of the instance is
    written, the key, the owner, the total and the date as well as the
    delivery crew and the status.  A value comes from the field of the
    name of the attribute, so it is of the kind of the column; a value of
    another kind does not arise, and leaves the instance as it is. *)
Definition setattr (instance : Order.t) (attr : string) (value : Value)
    : Order.t :=
  match value with
  | VUser u =>
      if String.eqb attr "delivery_crew" then
        {| Order.id := Order.id instance; Order.user := Order.user instance;
           Order.delivery_crew := u; Order.status := Order.status instance;
           Order.total := Order.total instance;
           Order.date := Order.date instance |}
      else instance
  | VBool b =>
      if String.eqb attr "status" then
        {| Order.id := Order.id instance; Order.user := Order.user instance;
           Order.delivery_crew := Order.delivery_crew instance;
           Order.status := b; Order.total := Order.total instance;
           Order.date := Order.date instance |}
      else instance
  | VKey k =>
      if String.eqb attr "id" then
        {| Order.id := k; Order.user := Order.user instance;
           Order.delivery_crew := Order.delivery_crew instance;
           Order.status := Order.status instance;
           Order.total := Order.total instance;
           Order.date := Order.date instance |}
      else if String.eqb attr "user" then
        {| Order.id := Order.id instance; Order.user := k;
           Order.delivery_crew := Order.delivery_crew instance;
           Order.status := Order.status instance;
           Order.total := Order.total instance;
           Order.date := Order.date instance |}
      else instance
  | VDecimal d =>
      if String.eqb attr "total" then
        {| Order.id := Order.id instance; Order.user := Order.user instance;
           Order.delivery_crew := Order.delivery_crew instance;
           Order.status := Order.status instance; Order.total := d;
           Order.date := Order.date instance |}
      else instance
  | VDate d =>
      if String.eqb attr "date" then
        {| Order.id := Order.id instance; Order.user := Order.user instance;
           Order.delivery_crew := Order.delivery_crew instance;
           Order.status := Order.status instance;
           Order.total := Order.total instance; Order.date := d |}
      else instance
  end.

(** [instance.save()]: the row with the key of the instance is
    rewritten. *)
Definition save_instance (instance : Order.t) (db : DB) : DB * Order.t :=
  (set_orders db
     (map (fun o => if Order.id o =? Order.id instance then instance else o)
          (orders db))
     (order_seq db), instance).

(** [ModelSerializer.update]: every validated attribute is set on the
    instance, which is then saved. *)
Definition update (instance : Order.t) (validated_data : Attrs)
    : ORM Order.t :=
  let instance' :=
    fold_left (fun i kv => setattr i (fst kv) (snd kv)) validated_data
              instance in
  execute (save_instance instance').

End OrderSerializer.

(** ** Order placement, statement by statement

    [OrderSerializer.create] opens no transaction, so each of its ORM
    calls is a statement of its own, and the statements of two requests
    that the server handles at the same time interleave.  [pc] is the
    point a request has reached in [create], with the local variables
    that are live there. *)

Module Placement.

Inductive pc :=
| Start
| Checked
| Summed (price__sum : option Z)
| Created (order : Order.t)
| Built (order : Order.t) (order_items : list (pk -> OrderItem.t))
| Inserted (order : Order.t)
| Returned (r : Result Order.t).

(** One statement of the request of [user]. *)
Definition step (user : User.t) (today : Z) (p : pc) (db : DB) : DB * pc :=
  match p with
  | Start =>
      if negb (exists_ (Cart_objects_filter user db))
      then (db, Returned (Raise OrderSerializer.cart_is_empty))
      else (db, Checked)
  | Checked => (db, Summed (aggregate_Sum_price (Cart_objects_filter user db)))
  | Summed None => (db, Returned (Raise IntegrityError))
  | Summed (Some order_total) =>
      let (db', order) := Order_objects_create user order_total today db in
      (db', Created order)
  | Created order =>
      (db, Built order (map (OrderSerializer.order_item order)
                            (Cart_objects_filter user db)))
  | Built order order_items =>
      (fst (OrderItem_objects_bulk_create order_items db), Inserted order)
  | Inserted order =>
      (fst (Cart_objects_filter_delete user db), Returned (Ok order))
  | Returned r => (db, Returned r)
  end.

(** Two requests, and the server's choice of which one moves next. *)
Inductive turn := First | Second.

Record config := { db : DB; first : pc; second : pc }.

Definition move (user1 user2 : User.t) (today : Z) (t : turn) (c : config)
    : config :=
  match t with
  | First =>
      let (db', p) := step user1 today (first c) (db c) in
      {| db := db'; first := p; second := second c |}
  | Second =>
      let (db', p) := step user2 today (second c) (db c) in
      {| db := db'; first := first c; second := p |}
  end.

Definition run (user1 user2 : User.t) (today : Z) (schedule : list turn)
    (c : config) : config :=
  fold_left (fun c t => move user1 user2 today t c) schedule c.

Definition start (d : DB) : config :=
  {| db := d; first := Start; second := Start |}.

End Placement.

(** ** Authentication and permissions *)

(** What a request presents: nothing, a token that no user holds, or the
    token of a user. *)
Inductive Credential :=
| NoCredential
| InvalidToken
| Token (u : User.t).

Inductive Authentication :=
| TokenAuthentication
| SessionAuthentication
| BasicAuthentication.

(** The authenticators are tried in order; the token authenticator raises
    on a token it does not know, and an authenticator passes on a request
    that does not use its scheme.  [None] is the anonymous user. *)
Fixpoint perform_authentication (authenticators : list Authentication)
    (c : Credential) : Result (option User.t) :=
  match authenticators with
  | [] => Ok None
  | TokenAuthentication :: rest =>
      match c with
      | NoCredential => perform_authentication rest c
      | InvalidToken => Raise AuthenticationFailed
      | Token u => Ok (Some u)
      end
  | _ :: rest => perform_authentication rest c
  end.

(** The [WWW-Authenticate] header of an authenticator, when it has one. *)
Definition authenticate_header (a : Authentication) : option string :=
  match a with
  | TokenAuthentication => Some "Token"%string
  | SessionAuthentication => None
  | BasicAuthentication => Some "Basic"%string
  end.

Module permissions.

Inductive Permission :=
| AllowAny
| IsAuthenticated
| IsManager
| IsCustomer
| IsDeliveryCrew
| OR (op1 op2 : Permission).

(** The anonymous user is in no group. *)
Fixpoint has_permission (p : Permission) (user : option User.t) : bool :=
  match p, user with
  | AllowAny, _ => true
  | IsAuthenticated, Some _ => true
  | IsAuthenticated, None => false
  | IsManager, Some u => in_group "manager" u
  | IsCustomer, Some u => in_group "customer" u
  | IsDeliveryCrew, Some u => in_group "delivery_crew" u
  | OR op1 op2, _ => has_permission op1 user || has_permission op2 user
  | _, None => false
  end.

Definition message (p : Permission) : string :=
  match p with
  | IsManager => "Only managers are allowed to do this action."
  | IsCustomer => "Only customers are allowed to do this action."
  | IsDeliveryCrew => "Only delivery crews are allowed to do this action."
  | _ => "You do not have permission to perform this action."
  end.

End permissions.
Import permissions.

(** [APIView.check_permissions] and [permission_denied]: the first
    permission that fails decides; a request that no authenticator
    accepted is not authenticated, any other is denied. *)
Fixpoint check_permissions (perms : list Permission)
    (authenticators : list Authentication) (user : option User.t)
    : Result unit :=
  match perms with
  | [] => Ok tt
  | p :: perms' =>
      if has_permission p user then
        check_permissions perms' authenticators user
      else
        match authenticators, user with
        | _ :: _, None => Raise NotAuthenticated
        | _, _ => Raise (PermissionDenied (message p))
        end
  end.

(** [APIView.handle_exception]: the status of the response to an
    exception. *)
Definition status_code (authenticators : list Authentication) (e : Exception)
    : Z :=
  match e with
  | ValidationError _ => 400
  | AuthenticationFailed | NotAuthenticated =>
      match authenticators with
      | a :: _ =>
          match authenticate_header a with
          | Some _ => 401
          | None => 403
          end
      | [] => 403
      end
  | PermissionDenied _ => 403
  | NotFound => 404
  | IntegrityError | AssertionError => 500
  end.

(** ** Views *)

Inductive Method := GET | POST | PUT | PATCH | DELETE.

Definition Method_eqb (a b : Method) : bool :=
  match a, b with
  | GET, GET | POST, POST | PUT, PUT | PATCH, PATCH | DELETE, DELETE => true
  | _, _ => false
  end.

Inductive View :=
| CreateUserView
| RetrieveUserView
| ListCategories
| MenuItemViewSet
| GroupView
| ListCreateDeleteCartView
| DeleteSingleItemCart
| OrderViewSet.

(** The [permission_classes] attribute of the class. *)
Definition permission_classes (v : View) : list Permission :=
  match v with
  | CreateUserView => [AllowAny]
  | RetrieveUserView => [IsAuthenticated]
  | ListCategories => [IsAuthenticated]
  | MenuItemViewSet => [IsAuthenticated; IsManager]
  | GroupView => [IsAuthenticated; IsManager]
  | ListCreateDeleteCartView => [IsAuthenticated; IsCustomer]
  | DeleteSingleItemCart => [IsAuthenticated; IsCustomer]
  | OrderViewSet => [IsAuthenticated]
  end.

(** The [authentication_classes] attribute, for the classes that set it;
    the others take the default of the settings. *)
Definition authentication_classes (v : View) : option (list Authentication) :=
  match v with
  | CreateUserView | ListCategories => None
  | _ => Some [TokenAuthentication]
  end.

Definition get_authenticators (DEFAULT_AUTHENTICATION_CLASSES : list Authentication)
    (v : View) : list Authentication :=
  match authentication_classes v with
  | Some classes => classes
  | None => DEFAULT_AUTHENTICATION_CLASSES
  end.

(** [get_permissions], overridden by [MenuItemViewSet] and [OrderViewSet];
    [action] is the action of a viewset (['list'], ['retrieve'], ...). *)
Definition get_permissions (v : View) (method : Method) (action : string)
    : list Permission :=
  match v with
  | MenuItemViewSet =>
      if Method_eqb method GET then [IsAuthenticated]
      else permission_classes MenuItemViewSet
  | OrderViewSet =>
      if (Method_eqb method GET && String.eqb action "retrieve")
         || Method_eqb method POST
      then [IsAuthenticated; IsCustomer]
      else if Method_eqb method PUT || Method_eqb method DELETE
      then [IsAuthenticated; IsManager]
      else if Method_eqb method PATCH
      then [IsAuthenticated; OR IsManager IsDeliveryCrew]
      else permission_classes OrderViewSet
  | _ => permission_classes v
  end.

(** [APIView.initial]: authentication, then the permissions. *)
Definition APIView_initial (DEFAULT_AUTHENTICATION_CLASSES : list Authentication)
    (v : View) (method : Method) (action : string) (c : Credential)
    : Result (option User.t) :=
  let authenticators := get_authenticators DEFAULT_AUTHENTICATION_CLASSES v in
  user <- perform_authentication authenticators c ;;
  check_permissions (get_permissions v method action) authenticators user ;;;
  Ok user.

Module GroupView.

(** [GroupView.initial]: [self.role] is set from the [role] of the path,
    and only then does the view authenticate. *)
Definition initial (DEFAULT_AUTHENTICATION_CLASSES : list Authentication)
    (method : Method) (role : string) (c : Credential)
    : Result (string * option User.t) :=
  self_role <-
    (if String.eqb role "manager" then Ok "manager"%string
     else if String.eqb role "delivery-crew" then Ok "delivery_crew"%string
     else Raise NotFound) ;;
  user <- APIView_initial DEFAULT_AUTHENTICATION_CLASSES GroupView method
                          ""%string c ;;
  Ok (self_role, user).

(** [user.groups.set([group])] on the row of the user. *)
Definition groups_set (u : User.t) (names : list string) (db : DB)
    : DB * unit :=
  (set_users db
     (map (fun x => if User.id x =? User.id u
                    then {| User.id := User.id x;
                            User.username := User.username x;
                            User.groups := names |}
                    else x)
          (users db)), tt).

(** [post]: the status of the response. *)
Definition post (self_role : string) (username : string) : ORM Z :=
  (found <- select (fun db =>
                      find (fun u => String.eqb (User.username u) username)
                           (users db)) ;;
   match found with
   | None => ret 404
   | Some user =>
       execute (groups_set user [self_role]) ;;;
       ret 201
   end)%orm.

(** [delete]: [get_object] looks the key up among the members of the
    role. *)
Definition delete (self_role : string) (k : pk) : ORM Z :=
  (found <- select (fun db =>
                      find (fun u => User.id u =? k)
                           (filter (in_group self_role) (users db))) ;;
   match found with
   | None => raise NotFound
   | Some user =>
       execute (groups_set user ["customer"%string]) ;;;
       ret 200
   end)%orm.

(** The members of the role: the queryset that [initial] sets. *)
Definition queryset (self_role : string) (db : DB) : list User.t :=
  filter (in_group self_role) (users db).

(** A [POST] and a [DELETE], from the credential on. *)
Definition dispatch_post (DEFAULT_AUTHENTICATION_CLASSES : list Authentication)
    (role : string) (c : Credential) (username : string) : ORM Z :=
  (r <- checked (fun _ =>
                   initial DEFAULT_AUTHENTICATION_CLASSES POST role c) ;;
   post (fst r) username)%orm.

Definition dispatch_delete (DEFAULT_AUTHENTICATION_CLASSES : list Authentication)
    (role : string) (c : Credential) (k : pk) : ORM Z :=
  (r <- checked (fun _ =>
                   initial DEFAULT_AUTHENTICATION_CLASSES DELETE role c) ;;
   delete (fst r) k)%orm.

End GroupView.

(** The response status of the first phase of a request: what [initial]
    raises, or [None] when the request reaches its handler. *)
Definition initial_status (DEFAULT_AUTHENTICATION_CLASSES : list Authentication)
    (v : View) (method : Method) (action : string) (role : string)
    (c : Credential) : option Z :=
  let authenticators := get_authenticators DEFAULT_AUTHENTICATION_CLASSES v in
  match v with
  | GroupView =>
      match GroupView.initial DEFAULT_AUTHENTICATION_CLASSES method role c with
      | Ok _ => None
      | Raise e => Some (status_code authenticators e)
      end
  | _ =>
      match APIView_initial DEFAULT_AUTHENTICATION_CLASSES v method action c with
      | Ok _ => None
      | Raise e => Some (status_code authenticators e)
      end
  end.

Module OrderViewSet.

(** [self.queryset] is not set by the class: it is [None] until a branch
    assigns it, and [GenericAPIView.get_queryset] asserts that it is
    set. *)
Definition get_queryset (user : User.t) (db : DB) : Result (list Order.t) :=
  let self_queryset :=
    if in_group "manager" user then
      Some (orders db)
    else if in_group "customer" user then
      Some (filter (fun o => Order.user o =? User.id user) (orders db))
    else if in_group "delivery_crew" user then
      Some (filter (fun o => match Order.delivery_crew o with
                             | Some k => k =? User.id user
                             | None => false
                             end) (orders db))
    else None in
  match self_queryset with
  | None => Raise AssertionError
  | Some queryset => Ok queryset
  end.

(** [get_object]: the order of the key, among those of the queryset. *)
Definition get_object (user : User.t) (k : pk) (db : DB) : Result Order.t :=
  queryset <- get_queryset user db ;;
  match find (fun o => Order.id o =? k) queryset with
  | None => Raise NotFound
  | Some o => Ok o
  end.

(** [update] and [partial_update] of [UpdateModelMixin]. *)
Definition update {F : Fields} (user : User.t) (k : pk) (data : Data)
    : ORM Order.t :=
  (instance <- checked (get_object user k) ;;
   validated_data <- checked (OrderSerializer.run_validation user data) ;;
   OrderSerializer.update instance validated_data)%orm.

(** [create] of [CreateModelMixin]: the data of the request is validated,
    and the order is then placed from the cart of the user; the validated
    data is not read by [OrderSerializer.create]. *)
Definition create {F : Fields} (user : User.t) (data : Data) (today : Z)
    : ORM Order.t :=
  (checked (OrderSerializer.run_validation user data) ;;;
   OrderSerializer.create user today)%orm.

(** [retrieve]: the status and the data of the response. *)
Definition retrieve (user : User.t) (k : pk) (db : DB)
    : Result (Z * list OrderItem.t) :=
  order <- get_object user k db ;;
  if negb (User.id user =? Order.user order) then Ok (400, [])
  else Ok (200, filter (fun i => OrderItem.order i =? Order.id order)
                       (orderitems db)).

(** A [PUT] ([partial] is [false]) or a [PATCH] ([partial] is [true]) on
    the order of key [k], from the credential on: [initial], then the
    handler. *)
Definition dispatch_update {F : Fields} (partial : bool) (c : Credential)
    (k : pk) (data : Data) : ORM Order.t :=
  let method := if partial then PATCH else PUT in
  let action := (if partial then "partial_update" else "update")%string in
  (request_user <- checked (fun _ =>
                     APIView_initial [] OrderViewSet method action c) ;;
   match request_user with
   | None => raise NotAuthenticated
   | Some user => update user k data
   end)%orm.

(** A [POST], from the credential on. *)
Definition dispatch_create {F : Fields} (c : Credential) (data : Data)
    (today : Z) : ORM Order.t :=
  (request_user <- checked (fun _ =>
                     APIView_initial [] OrderViewSet POST "create" c) ;;
   match request_user with
   | None => raise NotAuthenticated
   | Some user => create user data today
   end)%orm.

(** A [GET] of the order of key [k], from the credential on. *)
Definition dispatch_retrieve (c : Credential) (k : pk) (db : DB)
    : Result (Z * list OrderItem.t) :=
  request_user <- APIView_initial [] OrderViewSet GET "retrieve" c ;;
  match request_user with
  | None => Raise NotAuthenticated
  | Some user => retrieve user k db
  end.

End OrderViewSet.

Module ListCreateDeleteCartView.

Definition get_queryset (user : User.t) (db : DB) : list Cart.t :=
  Cart_objects_filter user db.

Definition post {F : Fields} (user : User.t) (data : Data) : ORM Cart.t :=
  CartSerializer.save user data.

(** [delete]: the status and the data of the response. *)
Definition delete (user : User.t) : ORM (Z * Detail) :=
  (nonempty <- select (fun db => exists_ (get_queryset user db)) ;;
   if negb nonempty then
     ret (400, [("detail", "Cart is already empty.")%string])
   else
     execute (Cart_objects_filter_delete user) ;;;
     ret (204, []))%orm.

End ListCreateDeleteCartView.

Module DeleteSingleItemCart.

Definition get_queryset (user : User.t) (db : DB) : list Cart.t :=
  Cart_objects_filter user db.

(** [instance.delete()]: the row of the key of the instance is deleted. *)
Definition instance_delete (instance : Cart.t) (db : DB) : DB * unit :=
  (set_carts db
             (filter (fun c => negb (Cart.id c =? Cart.id instance)) (carts db))
             (cart_seq db), tt).

(** [destroy] of [DestroyModelMixin]: [get_object] looks the key up among
    the cart lines of the user. *)
Definition destroy (user : User.t) (k : pk) : ORM Z :=
  (found <- select (fun db =>
                      find (fun c => Cart.id c =? k) (get_queryset user db)) ;;
   match found with
   | None => raise NotFound
   | Some instance =>
       execute (instance_delete instance) ;;;
       ret 204
   end)%orm.

End DeleteSingleItemCart.

(** ** Vocabulary of the properties *)

Definition sum_prices (lines : list Cart.t) : Z :=
  fold_right Z.add 0 (map Cart.price lines).

(** An order item is a copy of a cart line that refers to an order. *)
Definition copies (order : Order.t) (item : OrderItem.t) (line : Cart.t) : Prop :=
  OrderItem.order item = Order.id order /\
  OrderItem.menuitem item = Cart.menuitem line /\
  OrderItem.quantity item = Cart.quantity line /\
  OrderItem.unit_price item = Cart.unit_price line /\
  OrderItem.price item = Cart.price line.

(** The order that a placement by [user] creates. *)
Definition placed_order (user : User.t) (today : Z) (db : DB) : Order.t :=
  {| Order.id := order_seq db; Order.user := User.id user;
     Order.delivery_crew := None; Order.status := false;
     Order.total := sum_prices (Cart_objects_filter user db);
     Order.date := today |}.

(** The order items that it creates. *)
Definition placed_items (user : User.t) (today : Z) (db : DB)
    : list OrderItem.t :=
  assign_keys (orderitem_seq db)
    (map (OrderSerializer.order_item (placed_order user today db))
         (Cart_objects_filter user db)).

(** The database after it. *)
Definition placed_db (user : User.t) (today : Z) (db : DB) : DB :=
  {| users := users db; menuitems := menuitems db;
     carts := filter (fun c => negb (Cart.user c =? User.id user)) (carts db);
     orders := orders db ++ [placed_order user today db];
     orderitems := orderitems db ++ placed_items user today db;
     cart_seq := cart_seq db; order_seq := order_seq db + 1;
     orderitem_seq :=
       orderitem_seq db + Z.of_nat (length (Cart_objects_filter user db)) |}.

(** ** A small restaurant, for the examples *)

Definition alice : User.t :=
  {| User.id := 1; User.username := "alice"; User.groups := ["customer"%string] |}.

Definition mario : User.t :=
  {| User.id := 2; User.username := "mario"; User.groups := ["manager"%string] |}.

Definition dario : User.t :=
  {| User.id := 3; User.username := "dario";
     User.groups := ["delivery_crew"%string] |}.

(** A user in no group, as the command line of the framework creates
    them. *)
Definition root : User.t :=
  {| User.id := 4; User.username := "root"; User.groups := [] |}.

Definition item_A : MenuItem.t :=
  {| MenuItem.id := 1; MenuItem.title := "A"; MenuItem.price := 1000;
     MenuItem.featured := false; MenuItem.category := 1 |}.

Definition item_B : MenuItem.t :=
  {| MenuItem.id := 2; MenuItem.title := "B"; MenuItem.price := 500;
     MenuItem.featured := false; MenuItem.category := 1 |}.

Definition shop : DB :=
  {| users := [alice; mario; dario; root]; menuitems := [item_A; item_B];
     carts := []; orders := []; orderitems := [];
     cart_seq := 1; order_seq := 1; orderitem_seq := 1 |}.

Definition add_to_cart (item : pk) (quantity : Z) : Data :=
  [("menuitem", JNumber item); ("quantity", JNumber quantity)]%string.

(** The shop after alice put two A and one B in her cart. *)
Definition shop_with_cart : DB :=
  fst (CartSerializer.save (F := strict_fields) alice (add_to_cart 2 1)
         (fst (CartSerializer.save (F := strict_fields) alice
                 (add_to_cart 1 2) shop))).

(** The two requests take turns, statement by statement. *)
Definition alternating : list Placement.turn :=
  concat (repeat [Placement.First; Placement.Second] 6).

(** One request after the other. *)
Definition one_after_the_other : list Placement.turn :=
  repeat Placement.First 6 ++ repeat Placement.Second 6.

(** The (user, menu item) pairs of the cart lines, and their uniqueness. *)
Definition pairs (db : DB) : list (pk * pk) :=
  map (fun c => (Cart.user c, Cart.menuitem c)) (carts db).

Definition unique_pairs (db : DB) : Prop := NoDup (pairs db).

(** The roles of a user, and users that hold at most one of them. *)
Definition roles : list string := ["manager"; "customer"; "delivery_crew"]%string.

Definition roles_of (u : User.t) : list string :=
  filter (fun r => in_group r u) roles.

Definition at_most_one_role (u : User.t) : Prop :=
  (length (roles_of u) <= 1)%nat.

(** The orders a user owns, and those assigned to them. *)
Definition owned_by (user : User.t) (o : Order.t) : bool :=
  Order.user o =? User.id user.

Definition assigned_to (user : User.t) (o : Order.t) : bool :=
  match Order.delivery_crew o with
  | Some k => k =? User.id user
  | None => false
  end.

(** The columns of an order that no update writes. *)
Definition frozen (o : Order.t) : pk * pk * Z * Z :=
  (Order.id o, Order.user o, Order.total o, Order.date o).

Definition unique_keys (db : DB) : Prop := NoDup (map Order.id (orders db)).

(** The roles that the path of the group views knows. *)
Definition recognised (role : string) : bool :=
  String.eqb role "manager" || String.eqb role "delivery-crew".

(** The shop after alice placed her cart, on day 7. *)
Definition shop_with_order : DB :=
  fst (OrderSerializer.create alice 7 shop_with_cart).

(** What [validate] raises to a member of the delivery crew. *)
Definition only_status : Exception :=
  ValidationError [("detail", "Only status field is editable.")%string].

(** The shop after mario assigned the order of alice to dario. *)
Definition shop_assigned : DB :=
  fst (OrderViewSet.dispatch_update (F := strict_fields) true (Token mario) 1
         [("delivery_crew", JNumber 3)]%string shop_with_order).

(** A change set that names every field of an order. *)
Definition every_field : Data :=
  [("id", JNumber 9); ("user", JNumber 3); ("delivery_crew", JNumber 3);
   ("status", JBool true); ("total", JNumber 1); ("date", JNumber 99)]%string.

(** An order with another delivery crew and another status. *)
Definition edited (o : Order.t) (crew : option pk) (status : bool) : Order.t :=
  {| Order.id := Order.id o; Order.user := Order.user o;
     Order.delivery_crew := crew; Order.status := status;
     Order.total := Order.total o; Order.date := Order.date o |}.

(** The order of alice, as she placed it. *)
Definition order_of_alice : Order.t :=
  {| Order.id := 1; Order.user := 1; Order.delivery_crew := None;
     Order.status := false; Order.total := 2500; Order.date := 7 |}.

(** A change set of two keys, one of which is [status]. *)
Definition status_and_total : Data :=
  [("status", JBool true); ("total", JNumber 100)]%string.

(** The shop after alice, her order placed, put three B in her cart. *)
Definition shop_with_order_and_cart : DB :=
  fst (CartSerializer.save (F := strict_fields) alice (add_to_cart 2 3)
         shop_with_order).

(** Another customer. *)
Definition bob : User.t :=
  {| User.id := 5; User.username := "bob"; User.groups := ["customer"%string] |}.

(** The shop after bob registered, put one A in his cart and placed it,
    on day 8: alice has the order of key 1 and bob the order of key 2. *)
Definition shop_of_two_customers : DB :=
  fst (OrderSerializer.create bob 8
         (fst (CartSerializer.save (F := strict_fields) bob (add_to_cart 1 1)
                 (set_users shop_with_order
                            (users shop_with_order ++ [bob]))))).

(** The order of bob, as he placed it. *)
Definition order_of_bob : Order.t :=
  {| Order.id := 2; Order.user := 5; Order.delivery_crew := None;
     Order.status := false; Order.total := 1000; Order.date := 8 |}.

(** A cart line and an order item whose price is the unit price times
    the quantity. *)
Definition priced_line (c : Cart.t) : Prop :=
  Cart.price c = Cart.unit_price c * Cart.quantity c.

Definition priced_item (i : OrderItem.t) : Prop :=
  OrderItem.price i = OrderItem.unit_price i * OrderItem.quantity i.

(** What the cart and the order items keep. *)
Definition priced (db : DB) : Prop :=
  Forall priced_line (carts db) /\ Forall priced_item (orderitems db) /\
  unique_pairs db.

(** The keys of the orders are below the next key, and no order item
    refers to a key that is not given yet. *)
Definition keys_below (db : DB) : Prop :=
  Forall (fun o => Order.id o < order_seq db) (orders db) /\
  Forall (fun i => OrderItem.order i < order_seq db) (orderitems db).

(** The order items of an order, and the sum of their prices. *)
Definition items_of (o : Order.t) (db : DB) : list OrderItem.t :=
  filter (fun i => OrderItem.order i =? Order.id o) (orderitems db).

Definition sum_item_prices (items : list OrderItem.t) : Z :=
  fold_right Z.add 0 (map OrderItem.price items).

(** Every column of an order but its status. *)
Definition but_status (o : Order.t) : pk * pk * Z * Z * option pk :=
  (frozen o, Order.delivery_crew o).

(** * Properties *)

(** ** Lists and sums *)

Lemma fold_left_price (lines : list Cart.t) (acc : Z) :
  fold_left (fun a c => a + Cart.price c) lines acc = acc + sum_prices lines.
Proof.
  revert acc.
  induction lines as [|c lines IH]; intros acc; cbn [fold_left].
  - unfold sum_prices; cbn; lia.
  - rewrite IH. unfold sum_prices; cbn [map fold_right]. lia.
Qed.

Lemma aggregate_Sum_price_nonempty (lines : list Cart.t) :
  lines <> [] -> aggregate_Sum_price lines = Some (sum_prices lines).
Proof.
  destruct lines as [|c lines]; [congruence|]; intros _.
  unfold aggregate_Sum_price. now rewrite fold_left_price.
Qed.

Lemma exists_nonempty {A} (qs : list A) : qs <> [] -> exists_ qs = true.
Proof. destruct qs; cbn; congruence. Qed.

Lemma assign_keys_copies (order : Order.t) (lines : list Cart.t) (seq : pk) :
  Forall2 (copies order)
          (assign_keys seq (map (OrderSerializer.order_item order) lines))
          lines.
Proof.
  revert seq.
  induction lines as [|c lines IH]; intros seq; cbn; constructor; auto.
  repeat split.
Qed.

Lemma filter_filter_negb {A} (f : A -> bool) (l : list A) :
  filter f (filter (fun x => negb (f x)) l) = [].
Proof.
  induction l as [|x l IH]; cbn; auto.
  destruct (f x) eqn:E; cbn; auto. now rewrite E.
Qed.

(** ** Placing an order *)

Section Placing.

Variables (user : User.t) (today : Z) (db : DB).

Lemma create_nonempty :
  Cart_objects_filter user db <> [] ->
  OrderSerializer.create user today db
  = (placed_db user today db, Ok (placed_order user today db)).
Proof.
  intros Hne.
  unfold OrderSerializer.create, and_then, select, execute, ret.
  rewrite (exists_nonempty Hne). cbn [negb].
  rewrite (aggregate_Sum_price_nonempty Hne).
  cbn. unfold placed_db, placed_items.
  now rewrite length_map.
Qed.

Lemma create_empty :
  Cart_objects_filter user db = [] ->
  OrderSerializer.create user today db
  = (db, Raise OrderSerializer.cart_is_empty).
Proof.
  intros He.
  unfold OrderSerializer.create, and_then, select, raise.
  now rewrite He.
Qed.

End Placing.

(** The scenario of the spec: two A at 10.00 and one B at 5.00 in the
    cart give one order of 25.00 with two items, and an empty cart. *)
Example scenario_two_items :
  carts shop_with_cart
  = [ {| Cart.id := 1; Cart.user := 1; Cart.menuitem := 1; Cart.quantity := 2;
         Cart.unit_price := 1000; Cart.price := 2000 |};
      {| Cart.id := 2; Cart.user := 1; Cart.menuitem := 2; Cart.quantity := 1;
         Cart.unit_price := 500; Cart.price := 500 |} ] /\
  let (db', r) := OrderSerializer.create alice 7 shop_with_cart in
  r = Ok {| Order.id := 1; Order.user := 1; Order.delivery_crew := None;
            Order.status := false; Order.total := 2500; Order.date := 7 |} /\
  orders db' = [ {| Order.id := 1; Order.user := 1;
                    Order.delivery_crew := None; Order.status := false;
                    Order.total := 2500; Order.date := 7 |} ] /\
  orderitems db'
  = [ {| OrderItem.id := 1; OrderItem.order := 1; OrderItem.menuitem := 1;
         OrderItem.quantity := 2; OrderItem.unit_price := 1000;
         OrderItem.price := 2000 |};
      {| OrderItem.id := 2; OrderItem.order := 1; OrderItem.menuitem := 2;
         OrderItem.quantity := 1; OrderItem.unit_price := 500;
         OrderItem.price := 500 |} ] /\
  carts db' = [].
Proof. vm_compute. repeat split. Qed.

Lemma filter_other_user (user other : User.t) (l : list Cart.t) :
  User.id other <> User.id user ->
  filter (fun c => Cart.user c =? User.id other)
         (filter (fun c => negb (Cart.user c =? User.id user)) l)
  = filter (fun c => Cart.user c =? User.id other) l.
Proof.
  intros Hneq.
  induction l as [|c l IH]; cbn; auto.
  destruct (Cart.user c =? User.id user) eqn:Eu; cbn.
  - destruct (Cart.user c =? User.id other) eqn:Eo; auto.
    apply Z.eqb_eq in Eu, Eo. congruence.
  - now rewrite IH.
Qed.

(** C1. A customer whose cart is not empty places an order: one order is
    added, owned by the customer, whose total is the sum of the prices of
    the cart lines; one order item is added per cart line, in the order of
    the lines, that copies the menu item, the quantity, the unit price and
    the price of its line and refers to the new order; and afterwards the
    customer has no cart line left, while the cart lines of the other
    users are as they were. *)
Theorem create_places_the_cart (user : User.t) (today : Z) (db : DB) :
  Cart_objects_filter user db <> [] ->
  exists db' order items,
    OrderSerializer.create user today db = (db', Ok order) /\
    orders db' = orders db ++ [order] /\
    Order.user order = User.id user /\
    Order.total order = sum_prices (Cart_objects_filter user db) /\
    orderitems db' = orderitems db ++ items /\
    Forall2 (copies order) items (Cart_objects_filter user db) /\
    Cart_objects_filter user db' = [] /\
    (forall other, User.id other <> User.id user ->
                   Cart_objects_filter other db' = Cart_objects_filter other db).
Proof.
  intros Hne.
  exists (placed_db user today db), (placed_order user today db),
         (placed_items user today db).
  split; [now apply create_nonempty|].
  repeat split.
  - apply assign_keys_copies.
  - unfold Cart_objects_filter, placed_db; cbn [carts].
    apply (filter_filter_negb (fun c => Cart.user c =? User.id user)).
  - intros other Hneq. unfold Cart_objects_filter, placed_db; cbn [carts].
    now apply filter_other_user.
Qed.

Lemma create_places_the_cart_witness :
  Cart_objects_filter alice shop_with_cart <> [] /\
  exists db' order items,
    OrderSerializer.create alice 7 shop_with_cart = (db', Ok order) /\
    orders db' = orders shop_with_cart ++ [order] /\
    Order.user order = User.id alice /\
    Order.total order = sum_prices (Cart_objects_filter alice shop_with_cart) /\
    orderitems db' = orderitems shop_with_cart ++ items /\
    Forall2 (copies order) items (Cart_objects_filter alice shop_with_cart) /\
    Cart_objects_filter alice db' = [] /\
    (forall other, User.id other <> User.id alice ->
                   Cart_objects_filter other db'
                   = Cart_objects_filter other shop_with_cart).
Proof.
  split.
  - vm_compute; discriminate.
  - apply (create_places_the_cart alice 7 shop_with_cart).
    vm_compute; discriminate.
Defined.

(** C3. A customer whose cart has no line cannot place an order: the
    request fails with the validation error "Cart is empty." and the
    database is left as it was, so that no order and no order item is
    created. *)
Theorem create_refuses_the_empty_cart (user : User.t) (today : Z) (db : DB) :
  Cart_objects_filter user db = [] ->
  OrderSerializer.create user today db
  = (db, Raise (ValidationError [("detail", "Cart is empty.")%string])).
Proof. apply create_empty. Qed.

Lemma create_refuses_the_empty_cart_witness :
  Cart_objects_filter alice shop = [] /\
  OrderSerializer.create alice 7 shop
  = (shop, Raise (ValidationError [("detail", "Cart is empty.")%string])).
Proof.
  split.
  - reflexivity.
  - apply (create_refuses_the_empty_cart alice 7 shop). reflexivity.
Defined.

(** ** Placements, statement by statement *)

Import Placement.

Lemma Returned_stays (user1 user2 : User.t) (today : Z) (n : nat) (d : DB)
    (p : pc) (r : Result Order.t) :
  run user1 user2 today (repeat First n)
      {| db := d; first := Returned r; second := p |}
  = {| db := d; first := Returned r; second := p |}.
Proof.
  induction n as [|n IH]; cbn; auto.
Qed.

(** A request that runs alone does what [create] does. *)
Lemma run_alone (user1 user2 : User.t) (today : Z) (d : DB) (p : pc) :
  run user1 user2 today (repeat First 6)
      {| db := d; first := Start; second := p |}
  = {| db := fst (OrderSerializer.create user1 today d);
       first := Returned (snd (OrderSerializer.create user1 today d));
       second := p |}.
Proof.
  unfold run; cbn [repeat fold_left].
  destruct (Cart_objects_filter user1 d) as [|c cs] eqn:E.
  - rewrite (@create_empty user1 today d E).
    unfold move at 6; cbn [first db second step].
    rewrite E; cbn [exists_ negb].
    reflexivity.
  - assert (Hne : Cart_objects_filter user1 d <> []) by (rewrite E; discriminate).
    rewrite (@create_nonempty user1 today d Hne).
    unfold move at 6; cbn [first db second step].
    rewrite (exists_nonempty Hne); cbn [negb].
    unfold move at 5; cbn [first db second step].
    rewrite (aggregate_Sum_price_nonempty Hne).
    unfold move; cbn. unfold placed_db, placed_items, placed_order.
    now rewrite length_map.
Qed.

Lemma run_alone_second (user1 user2 : User.t) (today : Z) (d : DB) (p : pc) :
  run user1 user2 today (repeat Second 6)
      {| db := d; first := p; second := Start |}
  = {| db := fst (OrderSerializer.create user2 today d);
       first := p;
       second := Returned (snd (OrderSerializer.create user2 today d)) |}.
Proof.
  unfold run; cbn [repeat fold_left].
  destruct (Cart_objects_filter user2 d) as [|c cs] eqn:E.
  - rewrite (@create_empty user2 today d E).
    unfold move at 6; cbn [first db second step].
    rewrite E; cbn [exists_ negb].
    reflexivity.
  - assert (Hne : Cart_objects_filter user2 d <> []) by (rewrite E; discriminate).
    rewrite (@create_nonempty user2 today d Hne).
    unfold move at 6; cbn [first db second step].
    rewrite (exists_nonempty Hne); cbn [negb].
    unfold move at 5; cbn [first db second step].
    rewrite (aggregate_Sum_price_nonempty Hne).
    unfold move; cbn. unfold placed_db, placed_items, placed_order.
    now rewrite length_map.
Qed.

Lemma run_app (user1 user2 : User.t) (today : Z) (s1 s2 : list turn)
    (c : config) :
  run user1 user2 today (s1 ++ s2) c
  = run user1 user2 today s2 (run user1 user2 today s1 c).
Proof. unfold run. apply fold_left_app. Qed.

Lemma placed_db_cart_empty (user : User.t) (today : Z) (d : DB) :
  Cart_objects_filter user (placed_db user today d) = [].
Proof.
  unfold Cart_objects_filter, placed_db; cbn [carts].
  apply (filter_filter_negb (fun c => Cart.user c =? User.id user)).
Qed.

(** C2, as the code has it.  [create] opens no transaction: its
    statements run one by one.  When the second of two submissions of a
    cart that is not empty starts after the first has returned, the first
    creates one order, the second finds the cart empty and fails with
    "Cart is empty.", one order has been added in all, and the cart is
    empty at the end. *)
Theorem retry_after_return_finds_the_cart_empty (user : User.t) (today : Z)
    (d : DB) :
  Cart_objects_filter user d <> [] ->
  let c := run user user today one_after_the_other (start d) in
  exists order,
    first c = Returned (Ok order) /\
    second c
    = Returned (Raise (ValidationError [("detail", "Cart is empty.")%string])) /\
    orders (db c) = orders d ++ [order] /\
    Cart_objects_filter user (db c) = [].
Proof.
  intros Hne c. subst c.
  unfold one_after_the_other, start.
  rewrite run_app, run_alone, run_alone_second.
  rewrite (@create_nonempty user today d Hne). cbn [fst snd].
  rewrite (@create_empty user today _ (placed_db_cart_empty user today d)).
  cbn [fst snd first second db].
  exists (placed_order user today d).
  repeat split. apply placed_db_cart_empty.
Qed.

Lemma retry_after_return_finds_the_cart_empty_witness :
  Cart_objects_filter alice shop_with_cart <> [] /\
  let c := run alice alice 7 one_after_the_other (start shop_with_cart) in
  exists order,
    first c = Returned (Ok order) /\
    second c
    = Returned (Raise (ValidationError [("detail", "Cart is empty.")%string])) /\
    orders (db c) = orders shop_with_cart ++ [order] /\
    Cart_objects_filter alice (db c) = [].
Proof.
  split.
  - vm_compute; discriminate.
  - apply (retry_after_return_finds_the_cart_empty alice 7 shop_with_cart).
    vm_compute; discriminate.
Defined.

(** C2 fails as it is stated.  Two submissions of alice's cart whose
    statements alternate both pass the check of the cart, both return an
    order of 25.00, and the two cart lines end up as four order items;
    and after the third statement of a single submission the order is in
    the table while the cart still has its two lines. *)
Lemma interleaved_submissions_place_two_orders :
  (let c := run alice alice 7 alternating (start shop_with_cart) in
   first c = Returned (Ok {| Order.id := 1; Order.user := 1;
                             Order.delivery_crew := None;
                             Order.status := false; Order.total := 2500;
                             Order.date := 7 |}) /\
   second c = Returned (Ok {| Order.id := 2; Order.user := 1;
                              Order.delivery_crew := None;
                              Order.status := false; Order.total := 2500;
                              Order.date := 7 |}) /\
   length (orders (db c)) = 2%nat /\
   length (orderitems (db c)) = 4%nat) /\
  (let c := run alice alice 7 [First; First; First] (start shop_with_cart) in
   length (orders (db c)) = 1%nat /\
   length (Cart_objects_filter alice (db c)) = 2%nat).
Proof. vm_compute. repeat split. Qed.

(** ** Cart lines *)

Section CartLines.

Context {F : Fields}.

Lemma find_menuitem_id (db : DB) (k : pk) :
  In k (map MenuItem.id (menuitems db)) ->
  exists m, CartSerializer.find_menuitem db k = Some m /\ MenuItem.id m = k.
Proof.
  intros Hin. unfold CartSerializer.find_menuitem.
  destruct (find (fun m => MenuItem.id m =? k) (menuitems db)) as [m|] eqn:E.
  - exists m. split; auto. apply find_some in E. now apply Z.eqb_eq.
  - apply in_map_iff in Hin. destruct Hin as [m [Hid Hm]].
    apply (find_none _ _ E) in Hm. apply Z.eqb_neq in Hm. contradiction.
Qed.

Lemma filter_exists {A} (f : A -> bool) (l : list A) (x : A) :
  In x l -> f x = true -> exists_ (filter f l) = true.
Proof.
  intros Hin Hf. apply exists_nonempty. intros He.
  assert (Hx : In x (filter f l)) by (apply filter_In; auto).
  rewrite He in Hx. contradiction.
Qed.

Lemma filter_not_exists {A} (f : A -> bool) (l : list A) :
  exists_ (filter f l) = false -> forall x, In x l -> f x = false.
Proof.
  intros He x Hin. destruct (f x) eqn:E; auto.
  rewrite (filter_exists f l x Hin E) in He. discriminate.
Qed.

(** What [save] does to the cart table: nothing, or one more line whose
    pair no line had. *)
Lemma save_cases (user : User.t) (data : Data) (db : DB) :
  (exists e, CartSerializer.save user data db = (db, Raise e)) \/
  (exists line,
     CartSerializer.save user data db
     = (set_carts db (carts db ++ [line]) (cart_seq db + 1), Ok line) /\
     ~ In (Cart.user line, Cart.menuitem line) (pairs db)).
Proof.
  unfold CartSerializer.save, and_then, checked.
  destruct (CartSerializer.run_validation user data db) as [attrs|e] eqn:E.
  2: { left. now exists e. }
  right. cbn. eexists. split; [reflexivity|]. cbn.
  unfold CartSerializer.run_validation, bind in E.
  destruct (CartSerializer.to_internal_value user data db) as [value|]; [|discriminate].
  unfold CartSerializer.UniqueTogetherValidator in E.
  destruct (exists_ _) eqn:Ex in E; [discriminate|].
  unfold CartSerializer.validate in E.
  destruct (CartSerializer.quantity value <=? 0); [discriminate|].
  injection E as <-.
  intros Hin. unfold pairs in Hin. apply in_map_iff in Hin.
  destruct Hin as [c [Hc Hin]]. injection Hc as Hu Hm.
  pose proof (filter_not_exists _ _ Ex c Hin) as Hf. cbn in Hf.
  rewrite Hu, Hm, !Z.eqb_refl in Hf. discriminate.
Qed.

Lemma save_keeps_pairs_unique (user : User.t) (data : Data) (db : DB) :
  unique_pairs db -> unique_pairs (fst (CartSerializer.save user data db)).
Proof.
  intros Hu.
  destruct (save_cases user data db) as [[e ->]|[line [-> Hfresh]]]; auto.
  unfold unique_pairs, pairs in *. cbn.
  rewrite map_app. cbn.
  apply NoDup_app; auto.
  - constructor; [intros []|constructor].
  - intros x Hx [<-|[]]. contradiction.
Qed.

(** C9. A request to add a menu item that is already in the cart of the
    user fails with the message of the uniqueness validator, "Item is
    already in the cart.", and leaves the database, and with it the
    existing line, as it was; and whatever a request to add a line
    carries, the (user, menu item) pairs of the cart lines stay unique. *)
Theorem duplicate_cart_line_is_refused (user : User.t) (data : Data) (db : DB)
    (jm jq : JSON) (k : pk) (q : Z) (line : Cart.t) :
  get "menuitem" data = Some jm -> PrimaryKeyRelatedField jm = Some k ->
  get "quantity" data = Some jq -> IntegerField jq = Some q ->
  In k (map MenuItem.id (menuitems db)) ->
  In line (carts db) -> Cart.user line = User.id user ->
  Cart.menuitem line = k ->
  unique_pairs db ->
  CartSerializer.save user data db
  = (db, Raise (ValidationError
                  [("non_field_errors", "Item is already in the cart.")%string])) /\
  forall (user' : User.t) (data' : Data),
    unique_pairs (fst (CartSerializer.save user' data' db)).
Proof.
  intros Hm Hk Hq Hi Hmenu Hline Huser Hitem Hunique.
  split; [|intros; now apply save_keeps_pairs_unique].
  destruct (find_menuitem_id db k Hmenu) as [m [Hfind Hid]].
  unfold CartSerializer.save, and_then, checked,
    CartSerializer.run_validation, CartSerializer.to_internal_value.
  rewrite Hm, Hk, Hq, Hi, Hfind. cbn [bind].
  unfold CartSerializer.UniqueTogetherValidator.
  cbn [CartSerializer.user CartSerializer.menuitem].
  rewrite (filter_exists _ (carts db) line Hline).
  - reflexivity.
  - rewrite Huser, Hitem, Hid, !Z.eqb_refl. reflexivity.
Qed.

End CartLines.

Lemma duplicate_cart_line_is_refused_witness :
  CartSerializer.save (F := strict_fields) alice (add_to_cart 1 5) shop_with_cart
  = (shop_with_cart,
     Raise (ValidationError
              [("non_field_errors", "Item is already in the cart.")%string])) /\
  forall (user' : User.t) (data' : Data),
    unique_pairs
      (fst (CartSerializer.save (F := strict_fields) user' data' shop_with_cart)).
Proof.
  apply (@duplicate_cart_line_is_refused strict_fields
           alice (add_to_cart 1 5) shop_with_cart
           (JNumber 1) (JNumber 5) 1 5
           {| Cart.id := 1; Cart.user := 1; Cart.menuitem := 1;
              Cart.quantity := 2; Cart.unit_price := 1000;
              Cart.price := 2000 |}).
  - reflexivity.
  - reflexivity.
  - reflexivity.
  - reflexivity.
  - vm_compute; auto.
  - vm_compute; auto.
  - reflexivity.
  - reflexivity.
  - vm_compute. repeat constructor; cbn; intuition congruence.
Defined.

(** ** The orders a user sees *)

Lemma get_queryset_by_priority (user : User.t) (db : DB) :
  OrderViewSet.get_queryset user db
  = if in_group "manager" user then Ok (orders db)
    else if in_group "customer" user then Ok (filter (owned_by user) (orders db))
    else if in_group "delivery_crew" user
         then Ok (filter (assigned_to user) (orders db))
    else Raise AssertionError.
Proof.
  unfold OrderViewSet.get_queryset.
  destruct (in_group "manager" user); auto.
  destruct (in_group "customer" user); auto.
  destruct (in_group "delivery_crew" user); auto.
Qed.

(** C7. The orders that a list request sees are scoped by the role of the
    user, who holds at most one: a manager sees all the orders, a customer
    sees exactly the orders they own, and a member of the delivery crew
    sees exactly the orders assigned to them. *)
Theorem get_queryset_scopes_by_role (user : User.t) (db : DB) :
  at_most_one_role user ->
  (in_group "manager" user = true ->
   OrderViewSet.get_queryset user db = Ok (orders db)) /\
  (in_group "customer" user = true ->
   OrderViewSet.get_queryset user db
   = Ok (filter (owned_by user) (orders db))) /\
  (in_group "delivery_crew" user = true ->
   OrderViewSet.get_queryset user db
   = Ok (filter (assigned_to user) (orders db))).
Proof.
  unfold at_most_one_role, roles_of, roles. cbn [filter].
  rewrite get_queryset_by_priority.
  destruct (in_group "manager" user), (in_group "customer" user),
    (in_group "delivery_crew" user); cbn [length]; intros H;
    repeat split; intros; try discriminate; try reflexivity; lia.
Qed.

Lemma get_queryset_scopes_by_role_witness :
  at_most_one_role alice /\
  ((in_group "manager" alice = true ->
    OrderViewSet.get_queryset alice shop_with_order
    = Ok (orders shop_with_order)) /\
   (in_group "customer" alice = true ->
    OrderViewSet.get_queryset alice shop_with_order
    = Ok (filter (owned_by alice) (orders shop_with_order))) /\
   (in_group "delivery_crew" alice = true ->
    OrderViewSet.get_queryset alice shop_with_order
    = Ok (filter (assigned_to alice) (orders shop_with_order)))).
Proof.
  split.
  - vm_compute. lia.
  - apply (@get_queryset_scopes_by_role alice shop_with_order).
    vm_compute. lia.
Defined.

Lemma get_queryset_no_role (user : User.t) (db : DB) :
  in_group "manager" user = false ->
  in_group "customer" user = false ->
  in_group "delivery_crew" user = false ->
  OrderViewSet.get_queryset user db = Raise AssertionError.
Proof.
  intros Hm Hc Hd. rewrite get_queryset_by_priority. now rewrite Hm, Hc, Hd.
Qed.

(** C8 does not hold of the code.  A user in no group passes the
    permissions of a list request, and [get_queryset] then assigns no
    queryset and fails on the assertion of the framework: the request
    ends in a server error. *)
Theorem get_queryset_of_no_role_fails :
  APIView_initial [] OrderViewSet GET "list" (Token root) = Ok (Some root) /\
  OrderViewSet.get_queryset root shop_with_order = Raise AssertionError /\
  status_code [TokenAuthentication] AssertionError = 500.
Proof. repeat split. Qed.

(** ** Requests without a credential *)

(** C10, as the code has it.  On every view that authenticates by token
    (all but the registration of users and the list of categories), a
    request that presents no valid credential is answered 401 whatever it
    asks for, with one exception: the group views look at the role of the
    path before they authenticate, and answer 404 to a role they do not
    know. *)
Theorem no_credential_is_unauthorized
    (DEFAULT_AUTHENTICATION_CLASSES : list Authentication) (v : View)
    (method : Method) (action role : string) (c : Credential) :
  authentication_classes v = Some [TokenAuthentication] ->
  (forall u, c <> Token u) ->
  initial_status DEFAULT_AUTHENTICATION_CLASSES v method action role c
  = Some (match v with
          | GroupView => if recognised role then 401 else 404
          | _ => 401
          end).
Proof.
  intros Hauth Hc.
  assert (Hcred : c = NoCredential \/ c = InvalidToken).
  { destruct c as [| |u]; auto. now destruct (Hc u). }
  unfold initial_status, GroupView.initial, APIView_initial, recognised,
    get_authenticators.
  destruct v; try discriminate Hauth; cbn [authentication_classes];
    destruct Hcred as [-> | ->]; cbn [perform_authentication bind];
    try reflexivity;
    try (destruct method; cbn; try reflexivity;
         destruct (String.eqb action "retrieve"); reflexivity);
    destruct (String.eqb role "manager"); cbn; try reflexivity;
    destruct (String.eqb role "delivery-crew"); reflexivity.
Qed.

Lemma no_credential_is_unauthorized_witness :
  authentication_classes OrderViewSet = Some [TokenAuthentication] /\
  (forall u, NoCredential <> Token u) /\
  initial_status [] OrderViewSet PATCH "partial_update" "" NoCredential
  = Some 401.
Proof.
  split; [reflexivity|]. split; [discriminate|].
  apply (@no_credential_is_unauthorized [] OrderViewSet PATCH
           "partial_update"%string ""%string NoCredential).
  - reflexivity.
  - discriminate.
Defined.

(** C10 fails as it is stated.  Without a credential, a request for the
    members of a role that the path does not know is answered 404 and not
    401; and without a credential the registration of a user is not
    refused at all. *)
Lemma unknown_role_is_not_found_before_authentication :
  initial_status [SessionAuthentication; BasicAuthentication] GroupView GET
                 "" "chef" NoCredential = Some 404 /\
  GroupView.initial [SessionAuthentication; BasicAuthentication] GET "chef"
                    NoCredential = Raise NotFound /\
  initial_status [SessionAuthentication; BasicAuthentication] GroupView GET
                 "" "manager" NoCredential = Some 401 /\
  initial_status [SessionAuthentication; BasicAuthentication] CreateUserView
                 POST "" "" NoCredential = None.
Proof. repeat split. Qed.

(** ** Updates of an order *)

Section Updates.

Context {F : Fields}.

Lemma writable_fields_are :
  OrderSerializer.writable_fields = ["delivery_crew"; "status"]%string.
Proof. reflexivity. Qed.

Lemma status_to_internal_value (db : DB) (j : JSON) :
  OrderSerializer.field_to_internal_value db "status" j
  = match BooleanField j with
    | None => inl "Must be a valid boolean."%string
    | Some b => inr (OrderSerializer.VBool b)
    end.
Proof. reflexivity. Qed.

(** The validated data, by the fields that the request names. *)
Lemma to_internal_value_cases (data : Data) (db : DB) :
  OrderSerializer.to_internal_value data db
  = match get "status" data with
    | None =>
        match get "delivery_crew" data with
        | None => Ok []
        | Some jc =>
            match OrderSerializer.field_to_internal_value db "delivery_crew" jc with
            | inl e => Raise (ValidationError [("delivery_crew", e)%string])
            | inr c => Ok [("delivery_crew", c)%string]
            end
        end
    | Some js =>
        match BooleanField js, get "delivery_crew" data with
        | None, None =>
            Raise (ValidationError
                     [("status", "Must be a valid boolean.")%string])
        | Some b, None => Ok [("status", OrderSerializer.VBool b)%string]
        | None, Some jc =>
            match OrderSerializer.field_to_internal_value db "delivery_crew" jc with
            | inl e => Raise (ValidationError
                                [("delivery_crew", e);
                                 ("status", "Must be a valid boolean.")]%string)
            | inr c => Raise (ValidationError
                                [("status", "Must be a valid boolean.")%string])
            end
        | Some b, Some jc =>
            match OrderSerializer.field_to_internal_value db "delivery_crew" jc with
            | inl e => Raise (ValidationError [("delivery_crew", e)%string])
            | inr c => Ok [("delivery_crew", c);
                           ("status", OrderSerializer.VBool b)]%string
            end
        end
    end.
Proof.
  unfold OrderSerializer.to_internal_value.
  rewrite writable_fields_are. cbn [OrderSerializer.convert_fields].
  destruct (get "status" data) as [js|];
    [rewrite status_to_internal_value; destruct (BooleanField js)|];
    (destruct (get "delivery_crew" data) as [jc|];
     [destruct (OrderSerializer.field_to_internal_value db "delivery_crew" jc)|]);
    reflexivity.
Qed.

Lemma validate_of_delivery_crew (user : User.t) (attrs : OrderSerializer.Attrs) :
  in_group "delivery_crew" user = true ->
  (map fst attrs = ["status"%string] /\
   OrderSerializer.validate user attrs = Ok attrs) \/
  (map fst attrs <> ["status"%string] /\
   OrderSerializer.validate user attrs = Raise only_status).
Proof.
  intros Hcrew. unfold OrderSerializer.validate. rewrite Hcrew.
  destruct attrs as [|[k v] [|kv attrs]].
  - right. split; [discriminate|reflexivity].
  - unfold OrderSerializer.not_in. cbn [existsb fst length map].
    change (1 <? Z.of_nat 1) with false. cbn [orb].
    destruct (String.eqb_spec "status" k) as [<-|Hk]; cbn [orb negb].
    + left. split; reflexivity.
    + right. split; [congruence|reflexivity].
  - right. split; [discriminate|].
    assert (H : (1 <? Z.of_nat (length ((k, v) :: kv :: attrs))) = true).
    { apply Z.ltb_lt. cbn [length]. lia. }
    now rewrite H.
Qed.

Lemma validate_of_others (user : User.t) (attrs : OrderSerializer.Attrs) :
  in_group "delivery_crew" user = false ->
  OrderSerializer.validate user attrs = Ok attrs.
Proof.
  intros Hcrew. unfold OrderSerializer.validate. now rewrite Hcrew.
Qed.

Lemma run_validation_raises (user : User.t) (data : Data) (db : DB)
    (e : Exception) :
  OrderSerializer.run_validation user data db = Raise e ->
  exists detail, e = ValidationError detail.
Proof.
  unfold OrderSerializer.run_validation, bind.
  destruct (OrderSerializer.to_internal_value data db) as [attrs|e'] eqn:E.
  - unfold OrderSerializer.validate.
    destruct (in_group "delivery_crew" user); [|discriminate].
    destruct (_ || _); [|discriminate].
    intros [= <-]. eauto.
  - intros [= <-]. unfold OrderSerializer.to_internal_value in E.
    destruct (OrderSerializer.convert_fields _ _ _) as [[|err errs] attrs];
      [discriminate|].
    injection E as <-. eauto.
Qed.

(** An update that does not pass validation writes nothing. *)
Lemma update_not_valid (user : User.t) (k : pk) (data : Data) (db : DB)
    (e : Exception) :
  OrderSerializer.run_validation user data db = Raise e ->
  fst (OrderViewSet.update user k data db) = db /\
  exists e', snd (OrderViewSet.update user k data db) = Raise e'.
Proof.
  intros Hv. unfold OrderViewSet.update, and_then, checked.
  destruct (OrderViewSet.get_object user k db) as [o|e0]; cbn [fst snd].
  - rewrite Hv. cbn. eauto.
  - eauto.
Qed.

(** C4, as the code has it.  For a member of the delivery crew,
    [validate] accepts the validated change set exactly when it holds the
    one field [status]; the validated change set holds the writable fields
    that the request names, so that a request passes validation exactly
    when it names [status], with a boolean, and does not name
    [delivery_crew], whatever other keys it carries; and a request that
    does not pass fails with a validation error and leaves the database
    as it was. *)
Theorem delivery_crew_edits_status_only (user : User.t) (k : pk) (data : Data)
    (db : DB) :
  in_group "delivery_crew" user = true ->
  (forall attrs,
     OrderSerializer.validate user attrs = Ok attrs
     <-> map fst attrs = ["status"%string]) /\
  (forall attrs,
     OrderSerializer.run_validation user data db = Ok attrs
     <-> get "delivery_crew" data = None /\
         exists js b, get "status" data = Some js /\
                      BooleanField js = Some b /\
                      attrs = [("status", OrderSerializer.VBool b)%string]) /\
  (forall e,
     OrderSerializer.run_validation user data db = Raise e ->
     (exists detail, e = ValidationError detail) /\
     fst (OrderViewSet.update user k data db) = db /\
     exists e', snd (OrderViewSet.update user k data db) = Raise e').
Proof.
  intros Hcrew. split; [|split].
  - intros attrs.
    destruct (validate_of_delivery_crew user attrs Hcrew) as [[Hk ->]|[Hk ->]];
      split; intros H; auto; try discriminate; contradiction.
  - intros attrs.
    unfold OrderSerializer.run_validation. rewrite to_internal_value_cases.
    destruct (get "status" data) as [js|];
      [destruct (BooleanField js) as [b|] eqn:Eb|];
      (destruct (get "delivery_crew" data) as [jc|];
       [destruct (OrderSerializer.field_to_internal_value db "delivery_crew" jc)
          as [err|c]|]);
      cbn [bind];
      try (split; [discriminate|];
           intros [Hc [js' [b' [Hs [Hb Ha]]]]]; congruence).
    + destruct (validate_of_delivery_crew user
                  [("delivery_crew", c); ("status", OrderSerializer.VBool b)]%string
                  Hcrew) as [[Hk _]|[_ ->]]; [discriminate|].
      split; [discriminate|].
      intros [Hc _]; discriminate.
    + destruct (validate_of_delivery_crew user
                  [("status", OrderSerializer.VBool b)]%string
                  Hcrew) as [[_ ->]|[Hk _]]; [|now destruct Hk].
      split.
      * intros [= <-]. split; auto. exists js, b. auto.
      * intros [_ [js' [b' [Hs [Hb ->]]]]]. injection Hs as <-. congruence.
    + destruct (validate_of_delivery_crew user
                  [("delivery_crew", c)]%string
                  Hcrew) as [[Hk _]|[_ ->]]; [discriminate|].
      split; [discriminate|].
      intros [Hc _]; discriminate.
    + destruct (validate_of_delivery_crew user [] Hcrew)
        as [[Hk _]|[_ ->]]; [discriminate|].
      split; [discriminate|].
      intros [_ [js' [b' [Hs _]]]]; discriminate.
  - intros e He. split.
    + now apply run_validation_raises with (1 := He).
    + now apply update_not_valid with (1 := He).
Qed.

Lemma get_object_In (user : User.t) (k : pk) (db : DB) (o : Order.t) :
  OrderViewSet.get_object user k db = Ok o ->
  In o (orders db) /\ Order.id o = k.
Proof.
  unfold OrderViewSet.get_object. rewrite get_queryset_by_priority.
  destruct (in_group "manager" user);
    [|destruct (in_group "customer" user);
      [|destruct (in_group "delivery_crew" user); [|discriminate]]];
    cbn [bind];
    (destruct (find _ _) as [o'|] eqn:E; [|discriminate]);
    intros [= <-]; apply find_some in E; destruct E as [Hin Hid];
    apply Z.eqb_eq in Hid; split; auto;
    try (apply filter_In in Hin; tauto).
Qed.

(** [setattr] writes the attribute that it is given, whichever it is:
    the key, the owner, the total and the date of an order are not out of
    its reach. *)
Lemma setattr_writes (i : Order.t) (k u d t : Z) :
  Order.id (OrderSerializer.setattr i "id" (OrderSerializer.VKey k)) = k /\
  Order.user (OrderSerializer.setattr i "user" (OrderSerializer.VKey u)) = u /\
  Order.total (OrderSerializer.setattr i "total" (OrderSerializer.VDecimal t))
  = t /\
  Order.date (OrderSerializer.setattr i "date" (OrderSerializer.VDate d)) = d.
Proof. repeat split. Qed.

(** Nor does [update] protect them: with a total and a date among the
    validated data, the order is saved with that total and that date. *)
Lemma update_writes_validated_data :
  orders (fst (OrderSerializer.update order_of_alice
                 [("total", OrderSerializer.VDecimal 1);
                  ("date", OrderSerializer.VDate 99)]%string shop_with_order))
  = [ {| Order.id := 1; Order.user := 1; Order.delivery_crew := None;
         Order.status := false; Order.total := 1; Order.date := 99 |} ].
Proof. reflexivity. Qed.

(** And the conversion of the fields lets a total and a date through,
    when it is asked for them: what keeps them out of the validated data
    is that they are not among the writable fields. *)
Lemma convert_fields_of_total_and_date :
  OrderSerializer.convert_fields (F := strict_fields) shop_with_order
    ["total"; "date"]%string every_field
  = ([], [("total", OrderSerializer.VDecimal 1);
          ("date", OrderSerializer.VDate 99)]%string).
Proof. reflexivity. Qed.

(** The validated data name fields that were asked for. *)
Lemma convert_fields_names (db : DB) (names : list string) (data : Data) :
  Forall (fun kv => In (fst kv) names)
         (snd (OrderSerializer.convert_fields db names data)).
Proof.
  induction names as [|name names IH]; cbn [OrderSerializer.convert_fields].
  - constructor.
  - destruct (OrderSerializer.convert_fields db names data) as [errors attrs].
    cbn [snd] in IH.
    assert (Hw : Forall (fun kv : string * OrderSerializer.Value =>
                           In (fst kv) (name :: names)) attrs).
    { eapply Forall_impl; [|exact IH]. cbn beta. intros kv Hkv. now right. }
    destruct (get name data) as [j|]; [|exact Hw].
    destruct (OrderSerializer.field_to_internal_value db name j) as [e|v];
      cbn [snd]; [exact Hw|].
    constructor; [now left|exact Hw].
Qed.

Lemma to_internal_value_names (data : Data) (db : DB)
    (attrs : OrderSerializer.Attrs) :
  OrderSerializer.to_internal_value data db = Ok attrs ->
  Forall (fun kv => In (fst kv) OrderSerializer.writable_fields) attrs.
Proof.
  unfold OrderSerializer.to_internal_value.
  pose proof (convert_fields_names db OrderSerializer.writable_fields data) as H.
  destruct (OrderSerializer.convert_fields db OrderSerializer.writable_fields
              data) as [[|err errs] attrs']; [|discriminate].
  now intros [= <-].
Qed.

Lemma validate_Ok (user : User.t) (attrs attrs' : OrderSerializer.Attrs) :
  OrderSerializer.validate user attrs = Ok attrs' -> attrs' = attrs.
Proof.
  unfold OrderSerializer.validate.
  destruct (in_group "delivery_crew" user); [destruct (_ || _)|];
    congruence.
Qed.

(** The data that pass validation name writable fields only. *)
Lemma run_validation_names (user : User.t) (data : Data) (db : DB)
    (attrs : OrderSerializer.Attrs) :
  OrderSerializer.run_validation user data db = Ok attrs ->
  Forall (fun kv => In (fst kv) OrderSerializer.writable_fields) attrs.
Proof.
  unfold OrderSerializer.run_validation, bind.
  destruct (OrderSerializer.to_internal_value data db) as [attrs'|] eqn:E;
    [|discriminate].
  intros Hv. apply validate_Ok in Hv. subst attrs.
  now apply to_internal_value_names with (1 := E).
Qed.

(** Writing a writable field leaves the key, the owner, the total and the
    date as they were: neither of the writable fields is one of them. *)
Lemma setattr_frozen (i : Order.t) (attr : string) (v : OrderSerializer.Value) :
  In attr OrderSerializer.writable_fields ->
  frozen (OrderSerializer.setattr i attr v) = frozen i.
Proof.
  rewrite writable_fields_are. intros [<-|[<-|[]]]; destruct v; reflexivity.
Qed.

Lemma fold_setattr_frozen (attrs : OrderSerializer.Attrs) (i : Order.t) :
  Forall (fun kv => In (fst kv) OrderSerializer.writable_fields) attrs ->
  frozen (fold_left (fun i kv => OrderSerializer.setattr i (fst kv) (snd kv))
                    attrs i)
  = frozen i.
Proof.
  intros H. revert i.
  induction H as [|kv attrs Hkv _ IH]; intros i; cbn [fold_left]; auto.
  rewrite IH. now apply setattr_frozen.
Qed.

Lemma unique_key (l : list Order.t) (x y : Order.t) :
  NoDup (map Order.id l) -> In x l -> In y l -> Order.id x = Order.id y ->
  x = y.
Proof.
  induction l as [|z l IH]; cbn [map In]; [tauto|].
  intros Hnd Hx Hy Hid. inversion Hnd as [|? ? Hnotin Hnd']; subst.
  destruct Hx as [<-|Hx], Hy as [<-|Hy]; auto.
  - destruct Hnotin. rewrite Hid. now apply in_map.
  - destruct Hnotin. rewrite <- Hid. now apply in_map.
Qed.

Lemma save_instance_frozen (o o' : Order.t) (db : DB) :
  unique_keys db -> In o (orders db) -> frozen o' = frozen o ->
  map frozen (orders (fst (OrderSerializer.save_instance o' db)))
  = map frozen (orders db).
Proof.
  intros Hu Hin Hf. cbn [OrderSerializer.save_instance fst set_orders orders].
  rewrite map_map. apply map_ext_in. intros x Hx.
  destruct (Order.id x =? Order.id o') eqn:E; auto.
  apply Z.eqb_eq in E.
  assert (Hid : Order.id o' = Order.id o) by (unfold frozen in Hf; congruence).
  rewrite (@unique_key (orders db) x o Hu Hx Hin) by congruence.
  assumption.
Qed.

Lemma update_frozen (user : User.t) (k : pk) (data : Data) (db : DB) :
  unique_keys db ->
  map frozen (orders (fst (OrderViewSet.update user k data db)))
  = map frozen (orders db).
Proof.
  intros Hu. unfold OrderViewSet.update, and_then, checked.
  destruct (OrderViewSet.get_object user k db) as [o|e] eqn:Ho; auto.
  destruct (OrderSerializer.run_validation user data db) as [attrs|e] eqn:Ev;
    auto.
  unfold OrderSerializer.update, execute.
  destruct (OrderSerializer.save_instance _ db) as [db' o'] eqn:Es.
  change db' with (fst (db', o')). rewrite <- Es.
  apply save_instance_frozen with (o := o); auto.
  - now apply get_object_In in Ho.
  - apply fold_setattr_frozen. now apply run_validation_names with (1 := Ev).
Qed.

(** C6. Whoever sends it and whatever it carries, a full or a partial
    update leaves the key, the owner, the total and the date of every
    order as they were: the serializer converts its writable fields only,
    [Meta.read_only_fields] keeps the total and the date out of them, and
    the owner and the key are read-only by their kind. *)
Theorem update_keeps_owner_total_date (partial : bool) (c : Credential)
    (k : pk) (data : Data) (db : DB) :
  unique_keys db ->
  map frozen (orders (fst (OrderViewSet.dispatch_update partial c k data db)))
  = map frozen (orders db).
Proof.
  intros Hu. unfold OrderViewSet.dispatch_update, and_then, checked.
  destruct (APIView_initial _ _ _ _ c) as [[user|]|e]; auto.
  now apply update_frozen.
Qed.

Lemma initial_of_manager (partial : bool) (user : User.t) :
  in_group "manager" user = true ->
  APIView_initial [] OrderViewSet (if partial then PATCH else PUT)
                  (if partial then "partial_update" else "update")
                  (Token user)
  = Ok (Some user).
Proof.
  intros Hm. unfold APIView_initial. destruct partial; cbn; now rewrite Hm.
Qed.

(** C5, as the code has it.  A manager can set the delivery crew and the
    status of an order, by a full or by a partial update: the order comes
    back with the crew and the status of the request, and with the key,
    the owner, the total and the date that it had. *)
Theorem manager_edits_crew_and_status (partial : bool) (user : User.t)
    (k : pk) (data : Data) (db : DB) (o : Order.t) (jc js : JSON)
    (crew : option pk) (status : bool) :
  in_group "manager" user = true ->
  in_group "delivery_crew" user = false ->
  OrderViewSet.get_object user k db = Ok o ->
  get "delivery_crew" data = Some jc ->
  OrderSerializer.field_to_internal_value db "delivery_crew" jc
  = inr (OrderSerializer.VUser crew) ->
  get "status" data = Some js ->
  BooleanField js = Some status ->
  snd (OrderViewSet.dispatch_update partial (Token user) k data db)
  = Ok (edited o crew status) /\
  In (edited o crew status)
     (orders (fst (OrderViewSet.dispatch_update partial (Token user) k data db))).
Proof.
  intros Hm Hd Ho Hjc Hc Hjs Hs.
  unfold OrderViewSet.dispatch_update, and_then, checked.
  rewrite (@initial_of_manager partial user Hm).
  unfold OrderViewSet.update, and_then, checked. rewrite Ho.
  unfold OrderSerializer.run_validation.
  rewrite to_internal_value_cases, Hjs, Hs, Hjc, Hc. cbn [bind].
  rewrite (@validate_of_others user _ Hd).
  unfold OrderSerializer.update, execute, OrderSerializer.save_instance.
  cbn [fold_left fst snd OrderSerializer.setattr].
  change (String.eqb "delivery_crew" "delivery_crew") with true.
  change (String.eqb "status" "status") with true.
  cbn [Order.id Order.user Order.delivery_crew Order.status Order.total
       Order.date set_orders orders].
  fold (edited o crew status).
  split; [reflexivity|].
  apply get_object_In in Ho. destruct Ho as [Hin _].
  apply in_map_iff. exists o. split; auto.
  cbn [edited Order.id]. now rewrite Z.eqb_refl.
Qed.

End Updates.

Lemma delivery_crew_edits_status_only_witness :
  in_group "delivery_crew" dario = true /\
  (forall attrs,
     OrderSerializer.validate dario attrs = Ok attrs
     <-> map fst attrs = ["status"%string]) /\
  (forall attrs,
     OrderSerializer.run_validation (F := strict_fields) dario
       [("status", JBool true)]%string shop_assigned = Ok attrs
     <-> get "delivery_crew" [("status", JBool true)]%string = None /\
         exists js b, get "status" [("status", JBool true)]%string = Some js /\
                      BooleanField (Fields := strict_fields) js = Some b /\
                      attrs = [("status", OrderSerializer.VBool b)%string]) /\
  (forall e,
     OrderSerializer.run_validation (F := strict_fields) dario
       [("status", JBool true)]%string shop_assigned = Raise e ->
     (exists detail, e = ValidationError detail) /\
     fst (OrderViewSet.update (F := strict_fields) dario 1
            [("status", JBool true)]%string shop_assigned) = shop_assigned /\
     exists e', snd (OrderViewSet.update (F := strict_fields) dario 1
                       [("status", JBool true)]%string shop_assigned)
                = Raise e').
Proof.
  split; [reflexivity|].
  apply (@delivery_crew_edits_status_only strict_fields dario 1
           [("status", JBool true)]%string shop_assigned).
  reflexivity.
Defined.

(** C4 fails as it is stated.  The change set of dario names two fields,
    [status] and [total]; it passes validation, because [total] is
    read-only and never reaches [validate], and the order is updated: its
    status is set, its total is not. *)
Lemma change_set_of_two_keys_passes_validation :
  map fst status_and_total = ["status"; "total"]%string /\
  in_group "delivery_crew" dario = true /\
  OrderSerializer.run_validation (F := strict_fields) dario status_and_total
                                 shop_assigned
  = Ok [("status", OrderSerializer.VBool true)%string] /\
  snd (OrderViewSet.dispatch_update (F := strict_fields) true (Token dario) 1
         status_and_total shop_assigned)
  = Ok (edited order_of_alice (Some 3) true) /\
  orders (fst (OrderViewSet.dispatch_update (F := strict_fields) true
                 (Token dario) 1 status_and_total shop_assigned))
  = [edited order_of_alice (Some 3) true].
Proof. vm_compute. repeat split. Qed.

Lemma manager_edits_crew_and_status_witness :
  in_group "manager" mario = true /\
  in_group "delivery_crew" mario = false /\
  snd (OrderViewSet.dispatch_update (F := strict_fields) false (Token mario) 1
         every_field shop_with_order)
  = Ok (edited order_of_alice (Some 3) true) /\
  In (edited order_of_alice (Some 3) true)
     (orders (fst (OrderViewSet.dispatch_update (F := strict_fields) false
                     (Token mario) 1 every_field shop_with_order))).
Proof.
  split; [reflexivity|]. split; [reflexivity|].
  apply (@manager_edits_crew_and_status strict_fields false mario 1
           every_field shop_with_order order_of_alice
           (JNumber 3) (JBool true) (Some 3) true);
    reflexivity.
Defined.

(** C5 fails as it is stated.  A manager who sends every field of an
    order, by a full update as by a partial one, changes its delivery
    crew and its status; the key, the owner, the total and the date of
    the request are ignored. *)
Lemma manager_cannot_edit_owner_total_date :
  in_group "manager" mario = true /\
  get "user" every_field = Some (JNumber 3) /\
  get "total" every_field = Some (JNumber 1) /\
  get "date" every_field = Some (JNumber 99) /\
  (forall partial,
     snd (OrderViewSet.dispatch_update (F := strict_fields) partial
            (Token mario) 1 every_field shop_with_order)
     = Ok {| Order.id := 1; Order.user := 1; Order.delivery_crew := Some 3;
             Order.status := true; Order.total := 2500; Order.date := 7 |} /\
     orders (fst (OrderViewSet.dispatch_update (F := strict_fields) partial
                    (Token mario) 1 every_field shop_with_order))
     = [ {| Order.id := 1; Order.user := 1; Order.delivery_crew := Some 3;
            Order.status := true; Order.total := 2500; Order.date := 7 |} ]).
Proof.
  repeat split; destruct partial; reflexivity.
Qed.

Lemma update_keeps_owner_total_date_witness :
  unique_keys shop_with_order /\
  map frozen
      (orders (fst (OrderViewSet.dispatch_update (F := strict_fields) true
                      (Token mario) 1 every_field shop_with_order)))
  = map frozen (orders shop_with_order).
Proof.
  assert (Hu : unique_keys shop_with_order).
  { vm_compute. repeat constructor. intros []. }
  split; [exact Hu|].
  apply (@update_keeps_owner_total_date strict_fields true (Token mario) 1
           every_field shop_with_order Hu).
Defined.

(** ** Roles *)

(** A user whose groups were set to one group holds at most one role:
    this is what the group views and the registration leave behind. *)
Lemma single_group_single_role (u : User.t) (name : string) :
  User.groups u = [name] -> at_most_one_role u.
Proof.
  intros Hg. unfold at_most_one_role, roles_of, roles, in_group.
  rewrite Hg. cbn [filter existsb].
  destruct (String.eqb_spec "manager" name) as [<-|Hm]; cbn [orb].
  - cbn. lia.
  - destruct (String.eqb_spec "customer" name) as [<-|Hc]; cbn [orb].
    + cbn. lia.
    + destruct (String.eqb "delivery_crew" name); cbn; lia.
Qed.

Lemma groups_set_single_role (u x : User.t) (name : string) (db : DB) :
  In x (users (fst (GroupView.groups_set u [name] db))) ->
  User.id x = User.id u -> at_most_one_role x.
Proof.
  cbn [GroupView.groups_set fst set_users users]. intros Hin Hid.
  apply in_map_iff in Hin. destruct Hin as [y [Hy _]].
  destruct (User.id y =? User.id u) eqn:E.
  - apply single_group_single_role with (name := name). now subst x.
  - subst x. apply Z.eqb_neq in E. contradiction.
Qed.

(** * Further properties *)

(** ** Adding to the cart *)

Section AddingToTheCart.

Context {F : Fields}.

Lemma run_validation_raises_validation (user : User.t) (data : Data) (db : DB)
    (e : Exception) :
  CartSerializer.run_validation user data db = Raise e ->
  exists detail, e = ValidationError detail.
Proof.
  unfold CartSerializer.run_validation, CartSerializer.to_internal_value, bind.
  destruct (get "menuitem" data) as [jm|];
    [destruct (PrimaryKeyRelatedField jm) as [k|];
     [destruct (CartSerializer.find_menuitem db k) as [m|]|]|];
    (destruct (get "quantity" data) as [jq|];
     [destruct (IntegerField jq) as [q|]|]);
    try (intros [= <-]; eauto).
  unfold CartSerializer.UniqueTogetherValidator, CartSerializer.validate.
  destruct (exists_ _); [intros [= <-]; eauto|].
  destruct (_ <=? 0); [intros [= <-]; eauto|discriminate].
Qed.

Lemma run_validation_quantity (user : User.t) (data : Data) (db : DB)
    (attrs : CartSerializer.Attrs) :
  CartSerializer.run_validation user data db = Ok attrs ->
  0 < CartSerializer.quantity attrs /\
  exists jq, get "quantity" data = Some jq /\
             IntegerField jq = Some (CartSerializer.quantity attrs).
Proof.
  unfold CartSerializer.run_validation, CartSerializer.to_internal_value, bind.
  destruct (get "menuitem" data) as [jm|];
    [destruct (PrimaryKeyRelatedField jm) as [k|];
     [destruct (CartSerializer.find_menuitem db k) as [m|]|]|];
    (destruct (get "quantity" data) as [jq|];
     [destruct (IntegerField jq) as [q|] eqn:Eq|]);
    try discriminate.
  unfold CartSerializer.UniqueTogetherValidator, CartSerializer.validate.
  destruct (exists_ _); [discriminate|].
  cbn [CartSerializer.quantity].
  destruct (q <=? 0) eqn:E; [discriminate|].
  intros [= <-]. cbn [CartSerializer.quantity].
  apply Z.leb_gt in E. split; [assumption|]. exists jq. auto.
Qed.

(** A quantity that is zero or negative never reaches the cart: the
    request fails with a validation error and the database is as it
    was, whatever the rest of the request; and when the menu item exists
    and is not yet in the cart of the user, the error is the one of
    [validate]. *)
Theorem nonpositive_quantity_is_refused (user : User.t) (data : Data) (db : DB)
    (jq : JSON) (q : Z) :
  get "quantity" data = Some jq -> IntegerField jq = Some q -> q <= 0 ->
  (exists detail,
     CartSerializer.save user data db = (db, Raise (ValidationError detail))) /\
  (forall jm k m,
     get "menuitem" data = Some jm -> PrimaryKeyRelatedField jm = Some k ->
     CartSerializer.find_menuitem db k = Some m ->
     (forall c, In c (carts db) -> Cart.user c = User.id user ->
                Cart.menuitem c <> MenuItem.id m) ->
     CartSerializer.save user data db
     = (db, Raise (ValidationError
                     [("non_field_errors",
                       "quantity cannot be 0 or less than 0.")%string]))).
Proof.
  intros Hq Hi Hle. split.
  - unfold CartSerializer.save, and_then, checked.
    destruct (CartSerializer.run_validation user data db) as [attrs|e] eqn:E.
    + apply run_validation_quantity in E.
      destruct E as [Hpos [jq' [Hq' Hi']]]. rewrite Hq in Hq'.
      injection Hq' as <-. rewrite Hi in Hi'. injection Hi' as Hqq. lia.
    + destruct (run_validation_raises_validation _ _ _ E) as [detail ->].
      eauto.
  - intros jm k m Hm Hk Hfind Hfresh.
    unfold CartSerializer.save, and_then, checked,
      CartSerializer.run_validation, CartSerializer.to_internal_value.
    rewrite Hm, Hk, Hfind, Hq, Hi. cbn [bind].
    unfold CartSerializer.UniqueTogetherValidator.
    cbn [CartSerializer.user CartSerializer.menuitem].
    destruct (exists_ _) eqn:Ex.
    + exfalso. destruct (filter _ (carts db)) as [|c cs] eqn:Ef; [discriminate|].
      assert (Hin : In c (filter (fun c0 => (Cart.user c0 =? User.id user)
                                            && (Cart.menuitem c0 =? MenuItem.id m))
                                 (carts db))) by (rewrite Ef; now left).
      apply filter_In in Hin. destruct Hin as [Hin Hb].
      apply andb_true_iff in Hb. destruct Hb as [Hu Hi'].
      apply Z.eqb_eq in Hu, Hi'. now apply (Hfresh c).
    + cbn [bind]. unfold CartSerializer.validate. cbn [CartSerializer.quantity].
      destruct (Z.leb_spec q 0); [reflexivity|lia].
Qed.

(** A request for a menu item that exists and is not yet in the cart of
    the user, with a positive quantity, adds one line: it belongs to the
    user of the request, its unit price is the price of the menu item and
    its price is the unit price times the quantity, whatever the request
    says of the user or of the prices. *)
Theorem save_adds_the_priced_line (user : User.t) (data : Data) (db : DB)
    (jm jq : JSON) (k : pk) (q : Z) (m : MenuItem.t) :
  get "menuitem" data = Some jm -> PrimaryKeyRelatedField jm = Some k ->
  CartSerializer.find_menuitem db k = Some m ->
  get "quantity" data = Some jq -> IntegerField jq = Some q -> 0 < q ->
  (forall c, In c (carts db) -> Cart.user c = User.id user ->
             Cart.menuitem c <> k) ->
  let line := {| Cart.id := cart_seq db; Cart.user := User.id user;
                 Cart.menuitem := k; Cart.quantity := q;
                 Cart.unit_price := MenuItem.price m;
                 Cart.price := MenuItem.price m * q |} in
  CartSerializer.save user data db
  = (set_carts db (carts db ++ [line]) (cart_seq db + 1), Ok line).
Proof.
  intros Hm Hk Hfind Hq Hi Hpos Hfresh line. subst line.
  assert (Hid : MenuItem.id m = k).
  { unfold CartSerializer.find_menuitem in Hfind. apply find_some in Hfind.
    now apply Z.eqb_eq. }
  unfold CartSerializer.save, and_then, checked,
    CartSerializer.run_validation, CartSerializer.to_internal_value.
  rewrite Hm, Hk, Hfind, Hq, Hi. cbn [bind].
  unfold CartSerializer.UniqueTogetherValidator.
  cbn [CartSerializer.user CartSerializer.menuitem].
  destruct (exists_ _) eqn:Ex.
  - exfalso. destruct (filter _ (carts db)) as [|c cs] eqn:Ef; [discriminate|].
    assert (Hin : In c (filter (fun c0 => (Cart.user c0 =? User.id user)
                                          && (Cart.menuitem c0 =? MenuItem.id m))
                               (carts db))) by (rewrite Ef; now left).
    apply filter_In in Hin. destruct Hin as [Hin Hb].
    apply andb_true_iff in Hb. destruct Hb as [Hu Hi'].
    apply Z.eqb_eq in Hu, Hi'. apply (Hfresh c); congruence.
  - cbn [bind]. unfold CartSerializer.validate. cbn [CartSerializer.quantity].
    destruct (Z.leb_spec q 0); [lia|].
    unfold CartSerializer.create, execute.
    cbn [CartSerializer.user CartSerializer.menuitem CartSerializer.quantity].
    now rewrite Hid.
Qed.

End AddingToTheCart.

Lemma nonpositive_quantity_is_refused_witness :
  (exists detail,
     CartSerializer.save (F := strict_fields) alice (add_to_cart 1 0) shop
     = (shop, Raise (ValidationError detail))) /\
  (forall jm k m,
     get "menuitem" (add_to_cart 1 0) = Some jm ->
     PrimaryKeyRelatedField (Fields := strict_fields) jm = Some k ->
     CartSerializer.find_menuitem shop k = Some m ->
     (forall c, In c (carts shop) -> Cart.user c = User.id alice ->
                Cart.menuitem c <> MenuItem.id m) ->
     CartSerializer.save (F := strict_fields) alice (add_to_cart 1 0) shop
     = (shop, Raise (ValidationError
                       [("non_field_errors",
                         "quantity cannot be 0 or less than 0.")%string]))).
Proof.
  apply (@nonpositive_quantity_is_refused strict_fields alice (add_to_cart 1 0)
           shop (JNumber 0) 0).
  - reflexivity.
  - reflexivity.
  - lia.
Defined.

Lemma save_adds_the_priced_line_witness :
  CartSerializer.save (F := strict_fields) alice
    (("price", JNumber 1) :: ("user", JNumber 2) :: add_to_cart 1 2)%string shop
  = (set_carts shop
       (carts shop
        ++ [ {| Cart.id := 1; Cart.user := 1; Cart.menuitem := 1;
                Cart.quantity := 2; Cart.unit_price := 1000;
                Cart.price := 1000 * 2 |} ]) (1 + 1),
     Ok {| Cart.id := 1; Cart.user := 1; Cart.menuitem := 1;
           Cart.quantity := 2; Cart.unit_price := 1000;
           Cart.price := 1000 * 2 |}).
Proof.
  apply (@save_adds_the_priced_line strict_fields alice
           (("price", JNumber 1) :: ("user", JNumber 2) :: add_to_cart 1 2)%string
           shop (JNumber 1) (JNumber 2) 1 2 item_A).
  - reflexivity.
  - reflexivity.
  - reflexivity.
  - reflexivity.
  - reflexivity.
  - lia.
  - intros c [].
Defined.

(** ** Removing from the cart *)

Lemma unique_by {A B} (f : A -> B) (l : list A) (x y : A) :
  NoDup (map f l) -> In x l -> In y l -> f x = f y -> x = y.
Proof.
  induction l as [|z l IH]; cbn [map In]; [tauto|].
  intros Hnd Hx Hy Hf. inversion Hnd as [|? ? Hnotin Hnd']; subst.
  destruct Hx as [<-|Hx], Hy as [<-|Hy]; auto.
  - destruct Hnotin. rewrite Hf. now apply in_map.
  - destruct Hnotin. rewrite <- Hf. now apply in_map.
Qed.

Lemma NoDup_map_filter {A B} (f : A -> B) (g : A -> bool) (l : list A) :
  NoDup (map f l) -> NoDup (map f (filter g l)).
Proof.
  induction l as [|x l IH]; cbn [map filter]; auto.
  intros Hnd. inversion Hnd as [|? ? Hnotin Hnd']; subst.
  destruct (g x); cbn [map]; auto.
  constructor; auto.
  intros Hin. apply Hnotin. apply in_map_iff in Hin.
  destruct Hin as [y [Hy Hin]]. apply filter_In in Hin.
  rewrite <- Hy. apply in_map. tauto.
Qed.

Lemma Forall_filter {A} (P : A -> Prop) (g : A -> bool) (l : list A) :
  Forall P l -> Forall P (filter g l).
Proof.
  rewrite !Forall_forall. intros H x Hx. apply filter_In in Hx. now apply H.
Qed.

(** Clearing the cart answers 400 "Cart is already empty." and writes
    nothing when the user has no line; otherwise it answers 204, and in
    both cases the user has no line afterwards and the lines of the other
    users are as they were. *)
Theorem clearing_the_cart (user : User.t) (db : DB) :
  snd (ListCreateDeleteCartView.delete user db)
  = Ok (if exists_ (Cart_objects_filter user db) then (204, [])
        else (400, [("detail", "Cart is already empty.")%string])) /\
  Cart_objects_filter user (fst (ListCreateDeleteCartView.delete user db)) = [] /\
  (Cart_objects_filter user db = [] ->
   fst (ListCreateDeleteCartView.delete user db) = db) /\
  (forall other, User.id other <> User.id user ->
     Cart_objects_filter other (fst (ListCreateDeleteCartView.delete user db))
     = Cart_objects_filter other db).
Proof.
  unfold ListCreateDeleteCartView.delete, and_then, select, execute, ret,
    ListCreateDeleteCartView.get_queryset.
  destruct (exists_ (Cart_objects_filter user db)) eqn:Ex; cbn [negb fst snd].
  - cbn [Cart_objects_filter_delete fst snd].
    repeat split.
    + unfold Cart_objects_filter; cbn [carts set_carts].
      apply (filter_filter_negb (fun c => Cart.user c =? User.id user)).
    + intros He. rewrite He in Ex. discriminate.
    + intros other Hneq. unfold Cart_objects_filter; cbn [carts set_carts].
      now apply filter_other_user.
  - repeat split.
    destruct (Cart_objects_filter user db); [reflexivity|discriminate].
Qed.

(** Deleting one line of the cart, where the keys of the lines are
    unique: the lines of the other users stay, whatever the key asked
    for; a key that is not one of the user's own lines gives 404 and
    writes nothing; and the key of an own line removes that line and no
    other. *)
Theorem destroy_deletes_an_own_line_only (user : User.t) (k : pk) (db : DB) :
  NoDup (map Cart.id (carts db)) ->
  (forall c, In c (carts db) -> Cart.user c <> User.id user ->
             In c (carts (fst (DeleteSingleItemCart.destroy user k db)))) /\
  ((forall c, In c (carts db) -> Cart.id c = k -> Cart.user c <> User.id user) ->
   DeleteSingleItemCart.destroy user k db = (db, Raise NotFound)) /\
  ((exists c, In c (carts db) /\ Cart.id c = k /\ Cart.user c = User.id user) ->
   snd (DeleteSingleItemCart.destroy user k db) = Ok 204 /\
   forall c, In c (carts (fst (DeleteSingleItemCart.destroy user k db)))
             <-> In c (carts db) /\ Cart.id c <> k).
Proof.
  intros Hnd.
  unfold DeleteSingleItemCart.destroy, and_then, select, execute, ret, raise,
    DeleteSingleItemCart.get_queryset.
  destruct (find (fun c => Cart.id c =? k) (Cart_objects_filter user db))
    as [instance|] eqn:E; cbn [fst snd DeleteSingleItemCart.instance_delete].
  - apply find_some in E. destruct E as [Hin Hid].
    apply filter_In in Hin. destruct Hin as [Hin Hu].
    apply Z.eqb_eq in Hid, Hu. cbn [carts set_carts].
    split; [|split].
    + intros c Hc Hother. apply filter_In. split; auto.
      apply negb_true_iff, Z.eqb_neq. intros Heq.
      apply Hother. rewrite <- Hu. f_equal.
      now apply (unique_by Cart.id (carts db)).
    + intros Hnone. now destruct (Hnone instance Hin Hid).
    + intros _. split; auto. intros c. rewrite filter_In, negb_true_iff, Z.eqb_neq.
      rewrite Hid. tauto.
  - split; [|split].
    + auto.
    + reflexivity.
    + intros [c [Hin [Hid Hu]]]. exfalso.
      assert (Hc : In c (Cart_objects_filter user db)).
      { apply filter_In. split; auto. now apply Z.eqb_eq. }
      apply (find_none _ _ E) in Hc. apply Z.eqb_neq in Hc. contradiction.
Qed.

Lemma destroy_deletes_an_own_line_only_witness :
  NoDup (map Cart.id (carts shop_with_cart)) /\
  (forall c, In c (carts shop_with_cart) -> Cart.user c <> User.id mario ->
             In c (carts (fst (DeleteSingleItemCart.destroy mario 1
                                 shop_with_cart)))) /\
  ((forall c, In c (carts shop_with_cart) -> Cart.id c = 1 ->
              Cart.user c <> User.id mario) ->
   DeleteSingleItemCart.destroy mario 1 shop_with_cart
   = (shop_with_cart, Raise NotFound)) /\
  ((exists c, In c (carts shop_with_cart) /\ Cart.id c = 1 /\
              Cart.user c = User.id mario) ->
   snd (DeleteSingleItemCart.destroy mario 1 shop_with_cart) = Ok 204 /\
   forall c, In c (carts (fst (DeleteSingleItemCart.destroy mario 1
                                 shop_with_cart)))
             <-> In c (carts shop_with_cart) /\ Cart.id c <> 1).
Proof.
  assert (Hnd : NoDup (map Cart.id (carts shop_with_cart))).
  { vm_compute. repeat constructor; cbn; intuition congruence. }
  split; [exact Hnd|].
  apply (@destroy_deletes_an_own_line_only mario 1 shop_with_cart Hnd).
Defined.

(** ** What the cart and the orders keep *)

Lemma copies_priced (order : Order.t) (items : list OrderItem.t)
    (lines : list Cart.t) :
  Forall2 (copies order) items lines -> Forall priced_line lines ->
  Forall priced_item items.
Proof.
  induction 1 as [|i c items lines Hc _ IH]; intros Hl; constructor.
  - inversion Hl; subst. destruct Hc as [_ [_ [Hq [Hu Hp]]]].
    unfold priced_item, priced_line in *. congruence.
  - apply IH. now inversion Hl.
Qed.

Lemma create_priced (user : User.t) (today : Z) (db : DB) :
  priced db -> priced (fst (OrderSerializer.create user today db)).
Proof.
  intros [Hl [Hi Hu]].
  destruct (Cart_objects_filter user db) as [|c cs] eqn:E.
  - rewrite (@create_empty user today db E). cbn [fst]. now repeat split.
  - assert (Hne : Cart_objects_filter user db <> []) by (rewrite E; discriminate).
    rewrite (@create_nonempty user today db Hne). cbn [fst].
    unfold priced, unique_pairs, pairs, placed_db. cbn [carts orderitems].
    split; [|split].
    + now apply Forall_filter.
    + apply Forall_app. split; auto.
      apply copies_priced with (order := placed_order user today db)
                               (lines := Cart_objects_filter user db).
      * apply assign_keys_copies.
      * now apply Forall_filter.
    + now apply NoDup_map_filter.
Qed.

Section Kept.

Context {F : Fields}.

Lemma save_priced (user : User.t) (data : Data) (db : DB) :
  priced db -> priced (fst (CartSerializer.save user data db)).
Proof.
  intros [Hl [Hi Hu]]. unfold priced.
  split; [|split]; [| |now apply save_keeps_pairs_unique].
  - unfold CartSerializer.save, and_then, checked.
    destruct (CartSerializer.run_validation user data db); auto.
    cbn. apply Forall_app. split; auto.
    constructor; [|constructor]. reflexivity.
  - unfold CartSerializer.save, and_then, checked.
    destruct (CartSerializer.run_validation user data db); auto.
Qed.

(** Adding a line, clearing the cart, deleting a line and placing an
    order all keep what the cart and the order items hold: the price of
    every cart line and of every order item is its unit price times its
    quantity, and no user has two lines of one menu item. *)
Theorem cart_and_orders_stay_priced (user : User.t) (data : Data) (k : pk)
    (today : Z) (db : DB) :
  priced db ->
  priced (fst (CartSerializer.save user data db)) /\
  priced (fst (ListCreateDeleteCartView.delete user db)) /\
  priced (fst (DeleteSingleItemCart.destroy user k db)) /\
  priced (fst (OrderSerializer.create user today db)).
Proof.
  intros Hp. split; [|split; [|split]].
  - now apply save_priced.
  - destruct Hp as [Hl [Hi Hu]].
    unfold ListCreateDeleteCartView.delete, and_then, select, execute, ret.
    destruct (exists_ _); cbn [negb fst]; [|now repeat split].
    unfold priced, unique_pairs, pairs.
    cbn [Cart_objects_filter_delete fst carts orderitems set_carts].
    repeat split; auto using Forall_filter, NoDup_map_filter.
  - destruct Hp as [Hl [Hi Hu]].
    unfold DeleteSingleItemCart.destroy, and_then, select, execute, ret, raise.
    destruct (find _ _); cbn [fst]; [|now repeat split].
    unfold priced, unique_pairs, pairs.
    cbn [DeleteSingleItemCart.instance_delete fst carts orderitems set_carts].
    repeat split; auto using Forall_filter, NoDup_map_filter.
  - now apply create_priced.
Qed.

End Kept.

Lemma cart_and_orders_stay_priced_witness :
  priced shop_with_cart /\
  priced (fst (CartSerializer.save (F := strict_fields) alice
                 (add_to_cart 2 3) shop_with_cart)) /\
  priced (fst (ListCreateDeleteCartView.delete alice shop_with_cart)) /\
  priced (fst (DeleteSingleItemCart.destroy alice 1 shop_with_cart)) /\
  priced (fst (OrderSerializer.create alice 7 shop_with_cart)).
Proof.
  assert (Hp : priced shop_with_cart).
  { vm_compute. repeat split; repeat constructor; cbn; intuition congruence. }
  split; [exact Hp|].
  apply (@cart_and_orders_stay_priced strict_fields alice (add_to_cart 2 3) 1 7
           shop_with_cart Hp).
Defined.

(** ** The total and the keys of an order *)

Lemma sum_of_copies (order : Order.t) (items : list OrderItem.t)
    (lines : list Cart.t) :
  Forall2 (copies order) items lines ->
  sum_item_prices items = sum_prices lines /\
  filter (fun i => OrderItem.order i =? Order.id order) items = items.
Proof.
  induction 1 as [|i c items lines Hc _ [IHs IHf]].
  - split; reflexivity.
  - destruct Hc as [Ho [_ [_ [_ Hp]]]].
    unfold sum_item_prices, sum_prices in *. cbn [map fold_right filter].
    rewrite IHs, Hp, Ho, Z.eqb_refl, IHf. auto.
Qed.

Lemma filter_none {A} (g : A -> bool) (l : list A) :
  Forall (fun x => g x = false) l -> filter g l = [].
Proof.
  induction 1 as [|x l Hx _ IH]; cbn [filter]; auto. now rewrite Hx.
Qed.

(** When an order is placed, its total is the sum of the prices of the
    order items that refer to it, provided that no order item refers to
    a key that is not given yet. *)
Theorem placed_total_is_the_sum_of_its_items (user : User.t) (today : Z)
    (db : DB) :
  Cart_objects_filter user db <> [] ->
  keys_below db ->
  exists order,
    snd (OrderSerializer.create user today db) = Ok order /\
    sum_item_prices (items_of order (fst (OrderSerializer.create user today db)))
    = Order.total order.
Proof.
  intros Hne [_ Hitems].
  rewrite (@create_nonempty user today db Hne). cbn [fst snd].
  exists (placed_order user today db). split; [reflexivity|].
  unfold items_of, placed_db. cbn [orderitems].
  rewrite filter_app.
  destruct (@sum_of_copies (placed_order user today db)
              (placed_items user today db) (Cart_objects_filter user db)
              (assign_keys_copies _ _ _)) as [Hs Hf].
  rewrite Hf, filter_none; [exact Hs|].
  apply Forall_forall. rewrite Forall_forall in Hitems.
  intros i Hi. apply Z.eqb_neq. cbn [placed_order Order.id].
  specialize (Hitems i Hi). cbn beta in Hitems. lia.
Qed.

Lemma placed_total_is_the_sum_of_its_items_witness :
  Cart_objects_filter alice shop_with_cart <> [] /\
  keys_below shop_with_cart /\
  exists order,
    snd (OrderSerializer.create alice 7 shop_with_cart) = Ok order /\
    sum_item_prices
      (items_of order (fst (OrderSerializer.create alice 7 shop_with_cart)))
    = Order.total order.
Proof.
  assert (Hne : Cart_objects_filter alice shop_with_cart <> [])
    by (vm_compute; discriminate).
  assert (Hk : keys_below shop_with_cart) by (vm_compute; split; constructor).
  split; [exact Hne|]. split; [exact Hk|].
  apply (@placed_total_is_the_sum_of_its_items alice 7 shop_with_cart Hne Hk).
Defined.

Lemma copies_refer (order : Order.t) (items : list OrderItem.t)
    (lines : list Cart.t) :
  Forall2 (copies order) items lines ->
  Forall (fun i => OrderItem.order i = Order.id order) items.
Proof.
  induction 1 as [|i c items lines [Hord _] _ IH]; constructor; auto.
Qed.

Section Keys.

Context {F : Fields}.

Lemma create_keeps_keys (user : User.t) (today : Z) (db : DB) :
  unique_keys db -> keys_below db ->
  unique_keys (fst (OrderSerializer.create user today db)) /\
  keys_below (fst (OrderSerializer.create user today db)).
Proof.
  intros Hu [Ho Hi].
  destruct (Cart_objects_filter user db) as [|c cs] eqn:E.
  - rewrite (@create_empty user today db E). cbn [fst]. now repeat split.
  - assert (Hne : Cart_objects_filter user db <> []) by (rewrite E; discriminate).
    rewrite (@create_nonempty user today db Hne). cbn [fst].
    unfold unique_keys, keys_below, placed_db. cbn [orders orderitems order_seq].
    split; [|split].
    + rewrite map_app. cbn [map placed_order Order.id].
      apply NoDup_app; auto.
      * constructor; [intros []|constructor].
      * intros x Hx [<-|[]]. apply in_map_iff in Hx.
        destruct Hx as [o [Hid Hin]]. rewrite Forall_forall in Ho.
        specialize (Ho o Hin). cbn beta in Ho. lia.
    + apply Forall_app. split.
      * eapply Forall_impl; [|exact Ho]. cbn beta. intros; lia.
      * constructor; [|constructor]. cbn. lia.
    + apply Forall_app. split.
      * eapply Forall_impl; [|exact Hi]. cbn beta. intros; lia.
      * unfold placed_items.
        eapply Forall_impl;
          [|exact (copies_refer (assign_keys_copies
                                   (placed_order user today db)
                                   (Cart_objects_filter user db)
                                   (orderitem_seq db)))].
        cbn beta. intros i ->. cbn. lia.
Qed.

Lemma update_keeps_the_rest (user : User.t) (k : pk) (data : Data) (db : DB) :
  order_seq (fst (OrderViewSet.update user k data db)) = order_seq db /\
  orderitems (fst (OrderViewSet.update user k data db)) = orderitems db.
Proof.
  unfold OrderViewSet.update, and_then, checked.
  destruct (OrderViewSet.get_object user k db); auto.
  destruct (OrderSerializer.run_validation user data db); auto.
Qed.

(** Placing an order and updating an order keep the keys of the orders
    in order: no two orders share a key, the keys are below the next key
    of the table, and so are the keys that the order items refer to. *)
Theorem orders_keep_unique_keys (user : User.t) (k : pk) (data : Data)
    (today : Z) (db : DB) :
  unique_keys db -> keys_below db ->
  (unique_keys (fst (OrderViewSet.create user data today db)) /\
   keys_below (fst (OrderViewSet.create user data today db))) /\
  (unique_keys (fst (OrderViewSet.update user k data db)) /\
   keys_below (fst (OrderViewSet.update user k data db))).
Proof.
  intros Hu Hk. split.
  - unfold OrderViewSet.create, and_then, checked.
    destruct (OrderSerializer.run_validation user data db); cbn [fst]; auto.
    destruct (OrderSerializer.create user today db) as [db' r] eqn:E.
    pose proof (create_keeps_keys user today Hu Hk) as H.
    rewrite E in H. cbn [fst] in H. destruct r; exact H.
  - pose proof (update_frozen user k data Hu) as Hf.
    destruct (update_keeps_the_rest user k data db) as [Hseq Hitems].
    assert (Hids : map Order.id (orders (fst (OrderViewSet.update user k data db)))
                   = map Order.id (orders db)).
    { apply (f_equal (map (fun t : pk * pk * Z * Z => fst (fst (fst t))))) in Hf.
      rewrite !map_map in Hf. exact Hf. }
    unfold unique_keys, keys_below. rewrite Hids, Hseq, Hitems.
    destruct Hk as [Ho Hi].
    repeat split; auto.
    apply Forall_forall. intros o Ho'.
    assert (Hin : In (Order.id o) (map Order.id (orders db)))
      by (rewrite <- Hids; now apply in_map).
    apply in_map_iff in Hin. destruct Hin as [o0 [Hid Hin]].
    rewrite Forall_forall in Ho. specialize (Ho o0 Hin). cbn beta in Ho. lia.
Qed.

(** An order that a [POST] places does not depend on the body of the
    request: the request comes from a customer, and the order and the
    database are those of the placement of the customer's cart, with no
    delivery crew and the status not delivered. *)
Theorem create_ignores_the_request_body (c : Credential) (data : Data)
    (today : Z) (db db' : DB) (order : Order.t) :
  OrderViewSet.dispatch_create c data today db = (db', Ok order) ->
  exists user,
    c = Token user /\ in_group "customer" user = true /\
    order = placed_order user today db /\ db' = placed_db user today db.
Proof.
  unfold OrderViewSet.dispatch_create, and_then, checked, APIView_initial.
  cbn [get_authenticators authentication_classes get_permissions Method_eqb
       andb orb].
  destruct c as [| |user]; cbn [perform_authentication bind check_permissions
                                 has_permission];
    try discriminate.
  destruct (in_group "customer" user) eqn:Hc; cbn [bind]; [|discriminate].
  unfold OrderViewSet.create, and_then, checked, raise.
  destruct (OrderSerializer.run_validation user data db); [|discriminate].
  destruct (Cart_objects_filter user db) as [|l ls] eqn:E.
  - rewrite (@create_empty user today db E). discriminate.
  - assert (Hne : Cart_objects_filter user db <> []) by (rewrite E; discriminate).
    rewrite (@create_nonempty user today db Hne).
    intros [= <- <-]. exists user. auto.
Qed.

End Keys.

(** In the shop where alice has an order of two order items and a cart
    line, her placement succeeds and adds the order of key 2, her update
    of the order of key 1 succeeds and sets its status, and the keys are
    in order before and after both. *)
Lemma orders_keep_unique_keys_witness :
  unique_keys shop_with_order_and_cart /\
  keys_below shop_with_order_and_cart /\
  map Order.id (orders shop_with_order_and_cart) = [1] /\
  map OrderItem.order (orderitems shop_with_order_and_cart) = [1; 1] /\
  (exists order,
     snd (OrderViewSet.create (F := strict_fields) alice
            [("status", JBool true)]%string 8 shop_with_order_and_cart)
     = Ok order /\ Order.id order = 2) /\
  snd (OrderViewSet.update (F := strict_fields) alice 1
         [("status", JBool true)]%string shop_with_order_and_cart)
  = Ok (edited order_of_alice None true) /\
  (unique_keys (fst (OrderViewSet.create (F := strict_fields) alice
                       [("status", JBool true)]%string 8
                       shop_with_order_and_cart)) /\
   keys_below (fst (OrderViewSet.create (F := strict_fields) alice
                      [("status", JBool true)]%string 8
                      shop_with_order_and_cart))) /\
  (unique_keys (fst (OrderViewSet.update (F := strict_fields) alice 1
                       [("status", JBool true)]%string
                       shop_with_order_and_cart)) /\
   keys_below (fst (OrderViewSet.update (F := strict_fields) alice 1
                      [("status", JBool true)]%string
                      shop_with_order_and_cart))).
Proof.
  assert (Hu : unique_keys shop_with_order_and_cart).
  { vm_compute. repeat constructor. intros []. }
  assert (Hk : keys_below shop_with_order_and_cart).
  { vm_compute. split; repeat constructor. }
  split; [exact Hu|]. split; [exact Hk|].
  split; [reflexivity|]. split; [reflexivity|].
  split; [eexists; split; reflexivity|]. split; [reflexivity|].
  apply (@orders_keep_unique_keys strict_fields alice 1
           [("status", JBool true)]%string 8 shop_with_order_and_cart Hu Hk).
Defined.

Lemma create_ignores_the_request_body_witness :
  exists user,
    Token alice = Token user /\ in_group "customer" user = true /\
    placed_order alice 7 shop_with_cart = placed_order user 7 shop_with_cart /\
    placed_db alice 7 shop_with_cart = placed_db user 7 shop_with_cart.
Proof.
  apply (@create_ignores_the_request_body strict_fields (Token alice)
           [("status", JBool true); ("delivery_crew", JNumber 3)]%string
           7 shop_with_cart (placed_db alice 7 shop_with_cart)
           (placed_order alice 7 shop_with_cart)).
  vm_compute. reflexivity.
Defined.

(** ** Who may do what *)

(** Menu items: any user with a valid token may read; only a manager may
    create, replace, update or delete, and any other user is denied with
    the message of [IsManager]. *)
Theorem menu_items_are_written_by_managers
    (DEFAULT_AUTHENTICATION_CLASSES : list Authentication) (method : Method)
    (action : string) (user : User.t) :
  APIView_initial DEFAULT_AUTHENTICATION_CLASSES MenuItemViewSet method action
                  (Token user)
  = if Method_eqb method GET || in_group "manager" user then Ok (Some user)
    else Raise (PermissionDenied
                  "Only managers are allowed to do this action.").
Proof.
  unfold APIView_initial.
  destruct method; cbn; try reflexivity;
    destruct (in_group "manager" user); reflexivity.
Qed.

(** The cart views admit customers only and the group views managers
    only; any other user with a valid token is denied, with the message
    of the permission that fails. *)
Theorem carts_for_customers_groups_for_managers
    (DEFAULT_AUTHENTICATION_CLASSES : list Authentication) (method : Method)
    (action : string) (user : User.t) :
  let initial v :=
    APIView_initial DEFAULT_AUTHENTICATION_CLASSES v method action
                    (Token user) in
  let only (group message : string) :=
    if in_group group user then Ok (Some user)
    else Raise (PermissionDenied message) in
  initial ListCreateDeleteCartView
  = only "customer"%string
         "Only customers are allowed to do this action."%string /\
  initial DeleteSingleItemCart
  = only "customer"%string
         "Only customers are allowed to do this action."%string /\
  initial GroupView
  = only "manager"%string
         "Only managers are allowed to do this action."%string.
Proof.
  unfold APIView_initial. cbn.
  destruct (in_group "customer" user), (in_group "manager" user);
    repeat split.
Qed.

(** Orders, for a user with a valid token: placing an order and reading
    one order are for customers, replacing and deleting for managers, a
    partial update for managers and the delivery crew, and the list for
    everyone. *)
Theorem orders_permissions_by_method (user : User.t) :
  let allowed method action :=
    APIView_initial [] OrderViewSet method action (Token user)
    = Ok (Some user) in
  (allowed POST "create"%string <-> in_group "customer" user = true) /\
  (allowed GET "retrieve"%string <-> in_group "customer" user = true) /\
  allowed GET "list"%string /\
  (allowed PUT "update"%string <-> in_group "manager" user = true) /\
  (allowed DELETE "destroy"%string <-> in_group "manager" user = true) /\
  (allowed PATCH "partial_update"%string
   <-> in_group "manager" user = true \/ in_group "delivery_crew" user = true).
Proof.
  unfold APIView_initial. cbn.
  destruct (in_group "customer" user), (in_group "manager" user),
    (in_group "delivery_crew" user); cbn;
    repeat split; intros; auto; try discriminate;
    try (match goal with H : _ \/ _ |- _ => destruct H; discriminate end).
Qed.

Section Forbidden.

Context {F : Fields}.

(** A user who is not a manager cannot replace an order, and one who is
    neither a manager nor of the delivery crew cannot update one: the
    request is denied and the database is as it was. *)
Theorem others_cannot_update (user : User.t) (k : pk) (data : Data) (db : DB) :
  in_group "manager" user = false ->
  OrderViewSet.dispatch_update false (Token user) k data db
  = (db, Raise (PermissionDenied
                  "Only managers are allowed to do this action.")) /\
  (in_group "delivery_crew" user = false ->
   OrderViewSet.dispatch_update true (Token user) k data db
   = (db, Raise (PermissionDenied
                   "You do not have permission to perform this action."))).
Proof.
  intros Hm.
  unfold OrderViewSet.dispatch_update, and_then, checked, APIView_initial.
  cbn. rewrite Hm. cbn. split; [reflexivity|].
  intros ->. reflexivity.
Qed.

(** A member of the delivery crew changes nothing but the status: after
    their update, whether it succeeds or fails, every order has the key,
    the owner, the total, the date and the delivery crew that it had. *)
Theorem delivery_crew_changes_the_status_only (partial : bool) (user : User.t)
    (k : pk) (data : Data) (db : DB) :
  in_group "delivery_crew" user = true ->
  unique_keys db ->
  map but_status
      (orders (fst (OrderViewSet.dispatch_update partial (Token user) k data db)))
  = map but_status (orders db).
Proof.
  intros Hcrew Hu.
  unfold OrderViewSet.dispatch_update, and_then, checked.
  destruct (APIView_initial _ _ _ _ _) as [[u|]|e] eqn:Ei; auto.
  assert (u = user) as ->.
  { unfold APIView_initial in Ei. cbn [get_authenticators authentication_classes
                                       perform_authentication bind] in Ei.
    destruct (check_permissions _ _ _); [|discriminate]. now injection Ei. }
  unfold OrderViewSet.update, and_then, checked.
  destruct (OrderViewSet.get_object user k db) as [o|e] eqn:Ho; auto.
  destruct (OrderSerializer.run_validation user data db) as [attrs|e] eqn:Ev;
    auto.
  unfold OrderSerializer.run_validation, bind in Ev.
  destruct (OrderSerializer.to_internal_value data db) as [attrs'|];
    [|discriminate].
  destruct (validate_of_delivery_crew user attrs' Hcrew) as [[Hk Hv]|[_ Hv]];
    rewrite Hv in Ev; [|discriminate].
  injection Ev as <-.
  destruct attrs' as [|[name v] [|kv rest]]; try discriminate.
  injection Hk as ->.
  apply get_object_In in Ho. destruct Ho as [Hin _].
  unfold OrderSerializer.update, execute, OrderSerializer.save_instance.
  cbn [fold_left fst snd orders set_orders].
  rewrite map_map. apply map_ext_in. intros x Hx.
  destruct (Order.id x =? _) eqn:E; auto.
  apply Z.eqb_eq in E.
  assert (Hsame : but_status (OrderSerializer.setattr o "status" v)
                  = but_status o).
  { destruct v; reflexivity. }
  assert (Hid : Order.id (OrderSerializer.setattr o "status" v) = Order.id o).
  { destruct v; reflexivity. }
  rewrite Hsame. f_equal.
  apply (unique_by Order.id (orders db)); auto. congruence.
Qed.

End Forbidden.

Lemma others_cannot_update_witness :
  in_group "manager" alice = false /\
  OrderViewSet.dispatch_update (F := strict_fields) false (Token alice) 1
                               every_field shop_with_order
  = (shop_with_order,
     Raise (PermissionDenied "Only managers are allowed to do this action.")) /\
  (in_group "delivery_crew" alice = false ->
   OrderViewSet.dispatch_update (F := strict_fields) true (Token alice) 1
                                every_field shop_with_order
   = (shop_with_order,
      Raise (PermissionDenied
               "You do not have permission to perform this action."))).
Proof.
  split; [reflexivity|].
  apply (@others_cannot_update strict_fields alice 1 every_field
           shop_with_order).
  reflexivity.
Defined.

Lemma delivery_crew_changes_the_status_only_witness :
  in_group "delivery_crew" dario = true /\
  unique_keys shop_assigned /\
  map but_status
      (orders (fst (OrderViewSet.dispatch_update (F := strict_fields) true
                      (Token dario) 1 status_and_total shop_assigned)))
  = map but_status (orders shop_assigned).
Proof.
  assert (Hu : unique_keys shop_assigned).
  { vm_compute. repeat constructor. intros []. }
  split; [reflexivity|]. split; [exact Hu|].
  apply (@delivery_crew_changes_the_status_only strict_fields true dario 1
           status_and_total shop_assigned); [reflexivity|exact Hu].
Defined.

(** ** Members of the groups *)

Lemma groups_set_rows (u : User.t) (names : list string) (db : DB) (x : User.t) :
  In x (users (fst (GroupView.groups_set u names db))) ->
  (User.id x = User.id u /\ User.groups x = names) \/
  (User.id x <> User.id u /\ In x (users db)).
Proof.
  cbn [GroupView.groups_set fst set_users users]. intros Hin.
  apply in_map_iff in Hin. destruct Hin as [y [Hy Hin]].
  destruct (User.id y =? User.id u) eqn:E.
  - left. subst x. apply Z.eqb_eq in E. auto.
  - right. subst x. apply Z.eqb_neq in E. auto.
Qed.

Lemma groups_set_keeps_keys (u : User.t) (names : list string) (db : DB) :
  map User.id (users (fst (GroupView.groups_set u names db)))
  = map User.id (users db).
Proof.
  cbn [GroupView.groups_set fst set_users users].
  rewrite map_map. apply map_ext. intros y.
  destruct (User.id y =? User.id u); reflexivity.
Qed.

(** Adding a user to a group by name: an unknown name answers 404 and
    writes nothing; a known name answers 201, after which the user is in
    that group and in no other, every other user is as before, and no
    user is added or removed. *)
Theorem post_sets_exactly_the_role (self_role username : string) (db : DB)
    (u : User.t) :
  find (fun x => String.eqb (User.username x) username) (users db) = Some u ->
  snd (GroupView.post self_role username db) = Ok 201 /\
  (forall x, In x (users (fst (GroupView.post self_role username db))) ->
     (User.id x = User.id u /\ User.groups x = [self_role]) \/
     (User.id x <> User.id u /\ In x (users db))) /\
  map User.id (users (fst (GroupView.post self_role username db)))
  = map User.id (users db) /\
  (forall name,
     find (fun x => String.eqb (User.username x) name) (users db) = None ->
     GroupView.post self_role name db = (db, Ok 404)).
Proof.
  intros Hfind.
  split; [|split; [|split]].
  - unfold GroupView.post, and_then, select, execute, ret. now rewrite Hfind.
  - unfold GroupView.post, and_then, select, execute, ret. rewrite Hfind.
    intros x. apply groups_set_rows.
  - unfold GroupView.post, and_then, select, execute, ret. rewrite Hfind.
    apply groups_set_keeps_keys.
  - intros name Hnone.
    unfold GroupView.post, and_then, select, ret. now rewrite Hnone.
Qed.

Lemma post_sets_exactly_the_role_witness :
  snd (GroupView.post "delivery_crew" "alice" shop) = Ok 201 /\
  (forall x, In x (users (fst (GroupView.post "delivery_crew" "alice" shop))) ->
     (User.id x = User.id alice /\ User.groups x = ["delivery_crew"%string]) \/
     (User.id x <> User.id alice /\ In x (users shop))) /\
  map User.id (users (fst (GroupView.post "delivery_crew" "alice" shop)))
  = map User.id (users shop) /\
  (forall name,
     find (fun x => String.eqb (User.username x) name) (users shop) = None ->
     GroupView.post "delivery_crew" name shop = (shop, Ok 404)).
Proof.
  apply (@post_sets_exactly_the_role "delivery_crew"%string "alice"%string
           shop alice).
  reflexivity.
Defined.

(** Removing from a group a user who is not a member of it answers 404
    and writes nothing. *)
Theorem delete_of_a_non_member_is_not_found (self_role : string) (k : pk)
    (db : DB) :
  (forall x, In x (users db) -> User.id x = k -> in_group self_role x = false) ->
  GroupView.delete self_role k db = (db, Raise NotFound).
Proof.
  intros Hnot. unfold GroupView.delete, and_then, select, raise.
  destruct (find _ _) as [x|] eqn:E; [|reflexivity].
  apply find_some in E. destruct E as [Hin Hid].
  apply filter_In in Hin. destruct Hin as [Hin Hg].
  apply Z.eqb_eq in Hid. rewrite (Hnot x Hin Hid) in Hg. discriminate.
Qed.

Lemma delete_of_a_non_member_is_not_found_witness :
  (forall x, In x (users shop) -> User.id x = 1 ->
             in_group "manager" x = false) /\
  GroupView.delete "manager" 1 shop = (shop, Raise NotFound).
Proof.
  assert (H : forall x, In x (users shop) -> User.id x = 1 ->
                        in_group "manager" x = false).
  { intros x [<-|[<-|[<-|[<-|[]]]]]; cbn; intros; try reflexivity;
      discriminate. }
  split; [exact H|].
  apply (@delete_of_a_non_member_is_not_found "manager"%string 1 shop H).
Defined.

(** A user who is added to the managers or to the delivery crew and then
    removed from that group ends as a customer and no more, and is no
    longer among the members of the group. *)
Theorem added_then_removed_is_a_customer (self_role username : string)
    (db : DB) (u : User.t) :
  self_role <> "customer"%string ->
  find (fun x => String.eqb (User.username x) username) (users db) = Some u ->
  let db1 := fst (GroupView.post self_role username db) in
  let db2 := fst (GroupView.delete self_role (User.id u) db1) in
  snd (GroupView.delete self_role (User.id u) db1) = Ok 200 /\
  (forall x, In x (users db2) -> User.id x = User.id u ->
             User.groups x = ["customer"%string]) /\
  (forall x, In x (GroupView.queryset self_role db2) ->
             User.id x <> User.id u).
Proof.
  intros Hrole Hfind db1 db2.
  assert (Hdb1 : db1 = fst (GroupView.groups_set u [self_role] db)).
  { unfold db1, GroupView.post, and_then, select, execute, ret.
    now rewrite Hfind. }
  assert (Hmember : exists y,
            find (fun x => User.id x =? User.id u)
                 (filter (in_group self_role) (users db1)) = Some y /\
            User.id y = User.id u).
  { destruct (find _ (filter (in_group self_role) (users db1)))
      as [y|] eqn:E.
    - exists y. split; auto. apply find_some in E. now apply Z.eqb_eq.
    - exfalso. apply find_some in Hfind. destruct Hfind as [Hin _].
      set (u' := {| User.id := User.id u; User.username := User.username u;
                    User.groups := [self_role] |}).
      assert (Hu' : In u' (filter (in_group self_role) (users db1))).
      { apply filter_In. split.
        - rewrite Hdb1. cbn [GroupView.groups_set fst set_users users].
          apply in_map_iff. exists u. now rewrite Z.eqb_refl.
        - unfold in_group, u'. cbn. now rewrite String.eqb_refl. }
      apply (find_none _ _ E) in Hu'. cbn in Hu'.
      rewrite Z.eqb_refl in Hu'. discriminate. }
  destruct Hmember as [y [Hy Hid]].
  assert (Hdb2 : db2 = fst (GroupView.groups_set y ["customer"%string] db1)).
  { unfold db2, GroupView.delete, and_then, select, execute, ret.
    now rewrite Hy. }
  assert (Hrows : forall x, In x (users db2) -> User.id x = User.id u ->
                            User.groups x = ["customer"%string]).
  { intros x Hx Hxid. rewrite Hdb2 in Hx.
    apply groups_set_rows in Hx. destruct Hx as [[_ Hg]|[Hne _]]; auto.
    congruence. }
  split; [|split].
  - unfold GroupView.delete, and_then, select, execute, ret. now rewrite Hy.
  - exact Hrows.
  - intros x Hx Hxid. unfold GroupView.queryset in Hx.
    apply filter_In in Hx. destruct Hx as [Hin Hg].
    unfold in_group in Hg. rewrite (Hrows x Hin Hxid) in Hg.
    cbn [existsb] in Hg.
    rewrite orb_false_r in Hg. apply String.eqb_eq in Hg. contradiction.
Qed.

Lemma added_then_removed_is_a_customer_witness :
  "delivery_crew"%string <> "customer"%string /\
  let db1 := fst (GroupView.post "delivery_crew" "alice" shop) in
  let db2 := fst (GroupView.delete "delivery_crew" (User.id alice) db1) in
  snd (GroupView.delete "delivery_crew" (User.id alice) db1) = Ok 200 /\
  (forall x, In x (users db2) -> User.id x = User.id alice ->
             User.groups x = ["customer"%string]) /\
  (forall x, In x (GroupView.queryset "delivery_crew" db2) ->
             User.id x <> User.id alice).
Proof.
  split; [discriminate|].
  apply (@added_then_removed_is_a_customer "delivery_crew"%string
           "alice"%string shop alice).
  - discriminate.
  - reflexivity.
Defined.

(** A user who is not a manager cannot change the members of a group:
    adding and removing are denied and write nothing, whatever the role
    of the path, known or not. *)
Theorem others_cannot_change_groups
    (DEFAULT_AUTHENTICATION_CLASSES : list Authentication) (role : string)
    (user : User.t) (username : string) (k : pk) (db : DB) :
  in_group "manager" user = false ->
  (exists e,
     GroupView.dispatch_post DEFAULT_AUTHENTICATION_CLASSES role (Token user)
                             username db = (db, Raise e)) /\
  (exists e,
     GroupView.dispatch_delete DEFAULT_AUTHENTICATION_CLASSES role (Token user)
                               k db = (db, Raise e)).
Proof.
  intros Hm.
  unfold GroupView.dispatch_post, GroupView.dispatch_delete, and_then, checked,
    GroupView.initial, APIView_initial.
  destruct (String.eqb role "manager"); [|destruct (String.eqb role "delivery-crew")];
    cbn; rewrite ?Hm; cbn; eauto.
Qed.

Lemma others_cannot_change_groups_witness :
  in_group "manager" alice = false /\
  (exists e,
     GroupView.dispatch_post [] "manager" (Token alice) "alice" shop
     = (shop, Raise e)) /\
  (exists e,
     GroupView.dispatch_delete [] "manager" (Token alice) 2 shop
     = (shop, Raise e)).
Proof.
  split; [reflexivity|].
  apply (@others_cannot_change_groups [] "manager"%string alice
           "alice"%string 2 shop).
  reflexivity.
Defined.

(** ** Reading one order *)

(** When the detail of an order answers 200, the order belongs to the
    user who asks, and the data are the order items that refer to it. *)
Theorem retrieve_returns_the_items_of_an_own_order (user : User.t) (k : pk)
    (db : DB) (items : list OrderItem.t) :
  OrderViewSet.retrieve user k db = Ok (200, items) ->
  exists o, In o (orders db) /\ Order.id o = k /\
            Order.user o = User.id user /\ items = items_of o db.
Proof.
  unfold OrderViewSet.retrieve, bind.
  destruct (OrderViewSet.get_object user k db) as [o|e] eqn:Ho; [|discriminate].
  apply get_object_In in Ho. destruct Ho as [Hin Hid].
  destruct (User.id user =? Order.user o) eqn:E; cbn [negb]; [|discriminate].
  intros [= <-]. apply Z.eqb_eq in E. exists o. auto.
Qed.

Lemma retrieve_returns_the_items_of_an_own_order_witness :
  exists o, In o (orders shop_with_order) /\ Order.id o = 1 /\
            Order.user o = User.id alice /\
            items_of order_of_alice shop_with_order = items_of o shop_with_order.
Proof.
  apply (@retrieve_returns_the_items_of_an_own_order alice 1 shop_with_order
           (items_of order_of_alice shop_with_order)).
  reflexivity.
Defined.

(** A customer who is not a manager sees their own orders only: the
    detail of an order that is not theirs answers 404, and never the 400
    that [retrieve] keeps for an order of another user. *)
Theorem customer_reads_own_orders_only (user : User.t) (k : pk) (db : DB) :
  in_group "manager" user = false ->
  (forall items, OrderViewSet.dispatch_retrieve (Token user) k db
                 <> Ok (400, items)) /\
  (in_group "customer" user = true ->
   (forall o, In o (orders db) -> Order.id o = k ->
              Order.user o <> User.id user) ->
   OrderViewSet.dispatch_retrieve (Token user) k db = Raise NotFound).
Proof.
  intros Hm.
  unfold OrderViewSet.dispatch_retrieve, APIView_initial. cbn.
  destruct (in_group "customer" user) eqn:Hc; cbn.
  - unfold OrderViewSet.retrieve, OrderViewSet.get_object.
    rewrite get_queryset_by_priority, Hm, Hc. cbn [bind].
    destruct (find _ _) as [o|] eqn:E.
    + apply find_some in E. destruct E as [Hin Hid].
      apply filter_In in Hin. destruct Hin as [Hin Ho].
      unfold owned_by in Ho. apply Z.eqb_eq in Ho, Hid.
      cbn [bind]. rewrite Ho, Z.eqb_refl. cbn [negb]. split.
      * discriminate.
      * intros _ Hnone. now destruct (Hnone o Hin Hid).
    + split; [discriminate|reflexivity].
  - split; [discriminate|discriminate].
Qed.

(** Bob asks for the order of key 1, which exists and is the order of
    alice: the answer is 404, not 400. *)
Lemma customer_reads_own_orders_only_witness :
  in_group "manager" bob = false /\
  in_group "customer" bob = true /\
  orders shop_of_two_customers = [order_of_alice; order_of_bob] /\
  Order.id order_of_alice = 1 /\
  Order.user order_of_alice = User.id alice /\
  (forall o, In o (orders shop_of_two_customers) -> Order.id o = 1 ->
             Order.user o <> User.id bob) /\
  (forall items,
     OrderViewSet.dispatch_retrieve (Token bob) 1 shop_of_two_customers
     <> Ok (400, items)) /\
  OrderViewSet.dispatch_retrieve (Token bob) 1 shop_of_two_customers
  = Raise NotFound.
Proof.
  assert (Hm : in_group "manager" bob = false) by reflexivity.
  assert (Hc : in_group "customer" bob = true) by reflexivity.
  assert (Hnot : forall o, In o (orders shop_of_two_customers) ->
                           Order.id o = 1 -> Order.user o <> User.id bob).
  { intros o Hin Hid. vm_compute in Hin.
    destruct Hin as [<-|[<-|[]]]; [discriminate|discriminate Hid]. }
  split; [exact Hm|]. split; [exact Hc|].
  split; [reflexivity|]. split; [reflexivity|]. split; [reflexivity|].
  split; [exact Hnot|].
  split.
  - apply (@customer_reads_own_orders_only bob 1 shop_of_two_customers Hm).
  - apply (@customer_reads_own_orders_only bob 1 shop_of_two_customers Hm);
      [exact Hc|exact Hnot].
Defined.
